(** * excel_to_json: schema-to-column resolution and value cleaning

    A shallow embedding of [ExcelSurveyTransformer] (src/excel_to_json.py):
    the text helpers of Python that the class relies on, the cell and record
    data model, the methods [_clean_value], [_normalize_question_text],
    [_find_column_for_question], [_process_multiple_choice],
    [_skip_metadata_columns] and [transform], and the properties of the
    specification that concern them. *)

From Stdlib Require Import List Bool Ascii String NArith ZArith Lia.
From Stdlib Require Import DecimalString.
Import ListNotations.

(** ** Python text

    A Python [str] is modelled as the list of its characters.  Characters
    are the code points U+0000 .. U+00FF, carried by [ascii]; on that range
    the classification and case functions below are the ones of CPython. *)

Module PyStr.

Definition str := list ascii.

(** A literal, written [py "text"]. *)
Definition py (s : string) : str := list_ascii_of_string s.

Definition code (c : ascii) : N := N_of_ascii c.

Definition in_range (lo hi : N) (c : ascii) : bool :=
  (N.leb lo (code c) && N.leb (code c) hi)%bool.

Definition is_code (n : N) (c : ascii) : bool := N.eqb (code c) n.

(** [str.isspace] on one character, which is also the class [\s] of [re]
    and the set removed by [str.strip()]. *)
Definition isspace (c : ascii) : bool :=
  in_range 9 13 c || in_range 28 32 c || is_code 133 c || is_code 160 c.

(** [str.isalnum] on one character. *)
Definition isalnum (c : ascii) : bool :=
  in_range 48 57 c || in_range 65 90 c || in_range 97 122 c
  || is_code 170 c || is_code 178 c || is_code 179 c || is_code 181 c
  || is_code 185 c || is_code 186 c || in_range 188 190 c
  || in_range 192 214 c || in_range 216 246 c || in_range 248 255 c.

(** The class [\w] of [re] on a [str] pattern: alphanumeric or underscore. *)
Definition is_word (c : ascii) : bool := isalnum c || is_code 95 c.

Definition lower_char (c : ascii) : ascii :=
  if in_range 65 90 c || (in_range 192 222 c && negb (is_code 215 c))
  then ascii_of_N (code c + 32)
  else c.

(** [s.lower()] *)
Definition lower (s : str) : str := map lower_char s.

(** [s.lstrip()], [s.rstrip()] and [s.strip()] *)
Fixpoint lstrip (s : str) : str :=
  match s with
  | [] => []
  | c :: t => if isspace c then lstrip t else s
  end.

Definition rstrip (s : str) : str := rev (lstrip (rev s)).

Definition strip (s : str) : str := rstrip (lstrip s).

(** [s.replace(ch, '')] for a one-character [ch]. *)
Definition remove_char (ch : ascii) (s : str) : str :=
  filter (fun c => negb (Ascii.eqb c ch)) s.

(** [a == b] on strings. *)
Fixpoint str_eqb (a b : str) : bool :=
  match a, b with
  | [], [] => true
  | x :: a', y :: b' => Ascii.eqb x y && str_eqb a' b'
  | _, _ => false
  end.

(** [s.startswith(p)] *)
Fixpoint startswith (p s : str) : bool :=
  match p, s with
  | [], _ => true
  | x :: p', y :: s' => Ascii.eqb x y && startswith p' s'
  | _ :: _, [] => false
  end.

(** [needle in hay]: substring test. *)
Fixpoint contains (needle hay : str) : bool :=
  startswith needle hay ||
  match hay with
  | [] => false
  | _ :: t => contains needle t
  end.

(** [s.split(sep)] for a one-character separator: never an empty list. *)
Fixpoint split (sep : ascii) (s : str) : list str :=
  match s with
  | [] => [[]]
  | c :: t =>
      if Ascii.eqb c sep then [] :: split sep t
      else match split sep t with
           | [] => [[c]]
           | p :: ps => (c :: p) :: ps
           end
  end.

(** [sep.join(parts)] for a one-character separator. *)
Fixpoint join (sep : ascii) (parts : list str) : str :=
  match parts with
  | [] => []
  | p :: rest =>
      match rest with
      | [] => p
      | _ :: _ => p ++ sep :: join sep rest
      end
  end.

(** [re.sub(r'\s+', ' ', s)]: the scan emits one space when it enters a run
    of whitespace and nothing for the rest of the run. *)
Fixpoint sub_ws_from (in_run : bool) (s : str) : str :=
  match s with
  | [] => []
  | c :: t =>
      if isspace c
      then if in_run then sub_ws_from true t else " "%char :: sub_ws_from true t
      else c :: sub_ws_from false t
  end.

Definition sub_ws (s : str) : str := sub_ws_from false s.

(** [re.sub(r'[^\w\s]', '', s)] *)
Definition sub_nonword (s : str) : str :=
  filter (fun c => is_word c || isspace c) s.

(** [str(n)] for an integer. *)
Definition str_of_Z (n : Z) : str := py (NilZero.string_of_int (Z.to_int n)).

End PyStr.
Import PyStr.

(** ** Data model *)

(** A raw cell as the Series of its row holds it, that is after [pandas]
    has chosen the type of each column and of the row.  The code observes
    a cell through [pd.isna], through its truth value and through [str]
    only. *)
Inductive cell : Type :=
| CNaN                                  (* an empty cell: float nan *)
| CNaT                                  (* an empty cell of a date column: pandas NaT *)
| CNone                                 (* Python None: what [row.get] answers for an absent label *)
| CStr (s : str)                        (* text *)
| CInt (n : Z)                          (* an integer *)
| CObj (truthy : bool) (text : str).    (* any other scalar (float, bool, timestamp),
                                           given by [bool(v)] and [str(v)] *)

(** [pd.isna(value)] *)
Definition pd_isna (value : cell) : bool :=
  match value with
  | CNaN | CNaT | CNone => true
  | _ => false
  end.

(** [bool(value)], the test behind [if not value] *)
Definition truthy (value : cell) : bool :=
  match value with
  | CNaN => true
  | CNaT => true
  | CNone => false
  | CStr s => match s with [] => false | _ :: _ => true end
  | CInt n => negb (Z.eqb n 0)
  | CObj b _ => b
  end.

(** [str(value)] *)
Definition str_of (value : cell) : str :=
  match value with
  | CNaN => py "nan"
  | CNaT => py "NaT"
  | CNone => py "None"
  | CStr s => s
  | CInt n => str_of_Z n
  | CObj _ text => text
  end.

(** A value of an output record, as [json.dump] will see it. *)
Inductive value : Type :=
| VNull
| VStr (s : str)
| VList (l : list str)
| VInt (n : Z).

(** A Python [dict] with string keys: insertion-ordered, keys unique. *)
Definition dict (A : Type) := list (str * A).

(** [d[k] = v] *)
Fixpoint dict_set {A} (k : str) (v : A) (d : dict A) : dict A :=
  match d with
  | [] => [(k, v)]
  | (k', v') :: t =>
      if str_eqb k' k then (k, v) :: t else (k', v') :: dict_set k v t
  end.

(** [d.get(k)]: [None] when the key is absent, which is not the same as
    the key being present with the value [VNull]. *)
Fixpoint dict_get {A} (k : str) (d : dict A) : option A :=
  match d with
  | [] => None
  | (k', v') :: t => if str_eqb k' k then Some v' else dict_get k t
  end.

(** [k in d] *)
Definition dict_mem {A} (k : str) (d : dict A) : bool :=
  match dict_get k d with Some _ => true | None => false end.

(** An entry of [schema['questions']]; an absent field reads as [''],
    as [question_info.get(field, '')] does. *)
Record QuestionSpec : Type := mkQuestion {
  question : str;
  qtype : str
}.

(** [schema['questions']]: question key to question, in document order. *)
Definition Questions := dict QuestionSpec.

(** One row as [iterrows] yields it: a Series labelled by the columns. *)
Definition Series := list (str * cell).

(** [row.get(column_name)] *)
Fixpoint row_get (row : Series) (column_name : str) : cell :=
  match row with
  | [] => CNone
  | (label, v) :: t => if str_eqb label column_name then v else row_get t column_name
  end.

(** [raw_data]: the column headers, which are text, and under them the
    rows as [iterrows] yields them, every cell being the object the Series
    of its row holds.  How [pandas] arrives at these objects from the
    spreadsheet (the type it gives a column, the upcasting of a row) is
    not part of the model: a table is what the loop of [transform]
    sees. *)
Record Table : Type := mkTable {
  columns : list str;
  data : list (list cell)
}.

(** [raw_data.iterrows()] with the default integer index: the position of
    a row and the row, labelled by the headers. *)
Definition iterrows (raw_data : Table) : list (nat * Series) :=
  combine (seq 0 (List.length (data raw_data)))
          (map (combine (columns raw_data)) (data raw_data)).

(** ** The methods of [ExcelSurveyTransformer] *)

Definition quote_char : ascii := "034"%char.
Definition backslash_char : ascii := "092"%char.

(** The placeholders [_clean_value] maps to [None]. *)
Definition null_words : list str := [py ""; py "nan"; py "none"; py "-"].

Definition is_empty (s : str) : bool :=
  match s with [] => true | _ :: _ => false end.

(** [_clean_value] (lines 39-55): [None] for a missing value, otherwise
    the stripped text without double quotes and backslashes, or [None]
    when that text is empty or a placeholder. *)
Definition _clean_value (value : cell) : option str :=
  if pd_isna value then None
  else
    let cleaned := strip (str_of value) in
    let cleaned := remove_char quote_char cleaned in
    let cleaned := remove_char backslash_char cleaned in
    if is_empty cleaned || existsb (str_eqb (lower cleaned)) null_words
    then None
    else Some cleaned.

(** [_normalize_question_text] (lines 57-65) *)
Definition _normalize_question_text (text : str) : str :=
  if is_empty text then []
  else
    let normalized := sub_ws (lower (strip text)) in
    let normalized := sub_nonword normalized in
    normalized.

(** The three tests of [_find_column_for_question], one per loop. *)
Definition exact_match (schema_question col : str) : bool :=
  str_eqb (strip col) schema_question.

Definition normalized_match (schema_question col : str) : bool :=
  str_eqb (_normalize_question_text col)
          (_normalize_question_text schema_question).

Definition partial_match (schema_question col : str) : bool :=
  let schema_normalized := _normalize_question_text schema_question in
  let col_normalized := _normalize_question_text col in
  contains schema_normalized col_normalized
  || contains col_normalized schema_normalized.

(** [for col in cols: if test(col): return col], falling through with
    [None] when the loop ends. *)
Fixpoint first_col (test : str -> bool) (cols : list str) : option str :=
  match cols with
  | [] => None
  | col :: rest => if test col then Some col else first_col test rest
  end.

(** [_find_column_for_question] (lines 67-88), with [self.raw_data.columns]
    as [cols]: three loops over the columns, each returning at its first
    hit. *)
Definition _find_column_for_question (cols : list str) (schema_question : str)
  : option str :=
  match first_col (exact_match schema_question) cols with
  | Some col => Some col
  | None =>
      match first_col (normalized_match schema_question) cols with
      | Some col => Some col
      | None => first_col (partial_match schema_question) cols
      end
  end.

(** [part for part in parts if part]: [None] and [''] are falsy. *)
Definition truthy_part (part : option str) : bool :=
  match part with
  | Some (_ :: _) => true
  | _ => false
  end.

Definition truthy_parts (parts : list (option str)) : list str :=
  flat_map (fun part => if truthy_part part
                        then match part with Some s => [s] | None => [] end
                        else [])
           parts.

(** [_process_multiple_choice] (lines 90-100); its second parameter,
    [question_info], is not used by the body. *)
Definition _process_multiple_choice (value : cell) : option (list str) :=
  if negb (truthy value) then None
  else
    let parts := map (fun part => _clean_value (CStr part))
                     (split ";" (str_of value)) in
    let clean_parts := truthy_parts parts in
    match clean_parts with
    | [] => None
    | _ :: _ => Some clean_parts
    end.

Definition metadata_indicators : list str :=
  [py "id"; py "start time"; py "completion time"; py "email"; py "name";
   py "timestamp"; py "response id"; py "ip address"].

(** [_skip_metadata_columns] (lines 102-108) *)
Definition _skip_metadata_columns (col_name : str) : bool :=
  existsb (fun indicator => contains indicator (lower col_name))
          metadata_indicators.

(** What a cleaned scalar and a cleaned choice list become in a record. *)
Definition of_clean (r : option str) : value :=
  match r with Some s => VStr s | None => VNull end.

Definition of_choices (r : option (list str)) : value :=
  match r with Some l => VList l | None => VNull end.

(** The body of the inner loop of [transform] (lines 126-160): one
    question of the schema against one row, updating [transformed_row]. *)
Definition process_question (cols : list str) (row : Series)
    (transformed_row : dict value) (q : str * QuestionSpec) : dict value :=
  let question_key := fst q in
  let question_text := question (snd q) in
  let question_type := qtype (snd q) in
  match _find_column_for_question cols question_text with
  | None => dict_set question_key VNull transformed_row
  | Some column_name =>
      if _skip_metadata_columns column_name then transformed_row
      else
        let raw_value := row_get row column_name in
        if str_eqb question_type (py "multiple_choice") then
          dict_set question_key (of_choices (_process_multiple_choice raw_value)) transformed_row
        else if str_eqb question_type (py "open_text") then
          dict_set question_key (of_clean (_clean_value raw_value)) transformed_row
        else if str_eqb question_type (py "single_choice") then
          dict_set question_key (of_clean (_clean_value raw_value)) transformed_row
        else if str_eqb question_type (py "identifier") then
          dict_set question_key (of_clean (_clean_value raw_value)) transformed_row
        else
          dict_set question_key (of_clean (_clean_value raw_value)) transformed_row
  end.

(** The body of the outer loop (lines 120-162): the record of one row. *)
Definition transform_row (questions : Questions) (cols : list str)
    (index : nat) (row : Series) : dict value :=
  fold_left (process_question cols row) questions
            [(py "response_id", VInt (Z.of_nat index + 1))].

(** [transform]: the final [transformed_data].  The console messages are
    not part of the model. *)
Definition transform (questions : Questions) (raw_data : Table)
  : list (dict value) :=
  map (fun ir => transform_row questions (columns raw_data) (fst ir) (snd ir))
      (iterrows raw_data).

(** ** The transformer object, [save_json], [get_summary] and [main]

    Reading the spreadsheet and the schema and writing the JSON file are
    done by [pandas] and [json]; what they answer (a value, or an
    exception) is a parameter of the model.  The console messages are left
    out. *)

(** The exceptions that reach [main]. *)
Inductive exn : Type :=
| LoadError      (* raised again by [_load_data] or [_load_schema] *)
| SaveError      (* raised again by [save_json] *)
| TypeError.     (* indexing a [str] with a string key *)

Inductive result (A : Type) : Type :=
| Returned (a : A)
| Raised (e : exn).
Arguments Returned {A} a.
Arguments Raised {A} e.

(** The loaded schema document.  [M] is the type of the value stored under
    [survey_metadata], which the transformer copies and never inspects;
    [_load_schema] raises unless the key [questions] is there. *)
Record Schema (M : Type) : Type := mkSchema {
  survey_metadata : option M;
  schema_questions : Questions
}.
Arguments mkSchema {M} survey_metadata schema_questions.
Arguments survey_metadata {M} s.
Arguments schema_questions {M} s.

(** The fields of an [ExcelSurveyTransformer] once [__init__] is done. *)
Record Transformer (M : Type) : Type := mkTransformer {
  raw_data : Table;
  schema : Schema M;
  transformed_data : list (dict value)
}.
Arguments mkTransformer {M} raw_data schema transformed_data.
Arguments raw_data {M} t.
Arguments schema {M} t.
Arguments transformed_data {M} t.

(** [__init__] (lines 8-17): [_load_data], then [_load_schema]; an
    exception of either leaves no object. *)
Definition __init__ {M} (_load_data : result Table)
    (_load_schema : result (Schema M)) : result (Transformer M) :=
  match _load_data with
  | Raised e => Raised e
  | Returned data_loaded =>
      match _load_schema with
      | Raised e => Raised e
      | Returned schema_loaded =>
          Returned (mkTransformer data_loaded schema_loaded [])
      end
  end.

(** [transform] as the method it is (lines 110-164): [transformed_data] is
    reset and filled from [raw_data] and the questions of the schema. *)
Definition run_transform {M} (self : Transformer M) : Transformer M :=
  mkTransformer (raw_data self) (schema self)
                (transform (schema_questions (schema self)) (raw_data self)).

(** The value under [survey_metadata] in the output. *)
Inductive metadata_out (M : Type) : Type :=
| EmptyObject                 (* [{}], the default of [schema.get] *)
| Copied (m : M).
Arguments EmptyObject {M}.
Arguments Copied {M} m.

(** [output_data] of [save_json]. *)
Record Document (M : Type) : Type := mkDocument {
  doc_survey_metadata : metadata_out M;
  doc_responses : list (dict value)
}.
Arguments mkDocument {M} doc_survey_metadata doc_responses.
Arguments doc_survey_metadata {M} d.
Arguments doc_responses {M} d.

(** [save_json] (lines 166-179): the document handed to [json.dump], or the
    exception of the file system, raised again. *)
Definition save_json {M} (self : Transformer M) (writable : bool)
  : result (Document M) :=
  let output_data :=
    mkDocument
      (match survey_metadata (schema self) with
       | Some m => Copied m
       | None => EmptyObject
       end)
      (transformed_data self) in
  if writable then Returned output_data else Raised SaveError.

(** What [get_summary] returns: a message, or the dictionary with its
    three entries. *)
Inductive Summary : Type :=
| NoData (message : str)
| Stats (total_responses total_questions : nat)
        (sample_response : option (dict value)).

(** [get_summary] (lines 181-191) *)
Definition get_summary {M} (self : Transformer M) : Summary :=
  match transformed_data self with
  | [] => NoData (py "No data transformed yet")
  | _ :: _ =>
      Stats (List.length (transformed_data self))
            (List.length (schema_questions (schema self)))
            (match transformed_data self with
             | first :: _ => Some first
             | [] => None
             end)
  end.

(** [summary['total_responses']] and [summary['total_questions']] as
    [main] evaluates them: a [str] cannot be indexed by a string. *)
Definition summary_total_responses (summary : Summary) : result nat :=
  match summary with
  | NoData _ => Raised TypeError
  | Stats total_responses _ _ => Returned total_responses
  end.

Definition summary_total_questions (summary : Summary) : result nat :=
  match summary with
  | NoData _ => Raised TypeError
  | Stats _ total_questions _ => Returned total_questions
  end.

(** [main] (lines 193-223): the exit status, and the document written to
    the output file if one was. *)
Definition main {M} (_load_data : result Table)
    (_load_schema : result (Schema M)) (writable : bool)
  : Z * option (Document M) :=
  match __init__ _load_data _load_schema with
  | Raised _ => (1%Z, None)
  | Returned transformer =>
      let transformer := run_transform transformer in
      match save_json transformer writable with
      | Raised _ => (1%Z, None)
      | Returned written =>
          let summary := get_summary transformer in
          match summary_total_responses summary with
          | Raised _ => (1%Z, Some written)
          | Returned _ =>
              match summary_total_questions summary with
              | Raised _ => (1%Z, Some written)
              | Returned _ => (0%Z, Some written)
              end
          end
      end
  end.

(** ** Views of the results, for the statements *)

(** The letters, digits and marks an answer of the multiple choice
    transform cannot hold. *)
Definition answer_char_ok (c : ascii) : bool :=
  negb (Ascii.eqb c ";") && negb (Ascii.eqb c quote_char)
  && negb (Ascii.eqb c backslash_char).

(** The number of separators in a text. *)
Definition count_char (ch : ascii) (s : str) : nat :=
  List.length (filter (fun c => Ascii.eqb c ch) s).

(** The values a record can hold under a question key: null, a non-empty
    string, or a non-empty list of non-empty strings. *)
Definition answer_ok (v : value) : bool :=
  match v with
  | VNull => true
  | VStr s => negb (is_empty s)
  | VList l => negb (match l with [] => true | _ :: _ => false end)
               && forallb (fun s => negb (is_empty s)) l
  | VInt _ => false
  end.

(** The answers in a result of the multiple choice transform, null
    standing for none. *)
Definition answers_of (r : option (list str)) : list str :=
  match r with
  | Some l => l
  | None => []
  end.

(** Whether the inner loop stores a value for a question: it does unless
    the question resolves to a metadata column. *)
Definition question_is_stored (cols : list str) (info : QuestionSpec) : bool :=
  match _find_column_for_question cols (question info) with
  | None => true
  | Some column_name => negb (_skip_metadata_columns column_name)
  end.

(** The keys of a record after the inner loop, from the keys before it. *)
Definition keys_step (cols : list str) (keys : list str)
    (q : str * QuestionSpec) : list str :=
  if question_is_stored cols (snd q)
  then if existsb (str_eqb (fst q)) keys then keys else keys ++ [fst q]
  else keys.

Definition record_keys (cols : list str) (questions : Questions) : list str :=
  fold_left (keys_step cols) questions [py "response_id"].

(** ** The reference engine of the specification *)

(** Modelled from the spec: section 4.3, step 1, the memoization pass the
    specification asks for and the source does not have.  Each question is
    resolved once against the headers and the result is stored under its
    question key. *)
Definition resolve_all (cols : list str) (questions : Questions)
  : dict (option str) :=
  fold_left
    (fun cache q =>
       dict_set (fst q) (_find_column_for_question cols (question (snd q))) cache)
    questions [].

(** What ValueTransformer returns for a raw value and a declared type
    (section 4.2, step 2). *)
Definition value_transform (question_type : str) (raw_value : cell) : value :=
  if str_eqb question_type (py "multiple_choice")
  then of_choices (_process_multiple_choice raw_value)
  else of_clean (_clean_value raw_value).

(** Modelled from the spec: section 4.3, step 2b, one question against one
    row, reading the cached resolution instead of resolving again. *)
Definition process_question_cached (cache : dict (option str)) (row : Series)
    (record : dict value) (q : str * QuestionSpec) : dict value :=
  match dict_get (fst q) cache with
  | None | Some None => dict_set (fst q) VNull record
  | Some (Some column_name) =>
      if _skip_metadata_columns column_name then record
      else dict_set (fst q) (value_transform (qtype (snd q)) (row_get row column_name)) record
  end.

(** Modelled from the spec: section 4.3, the whole algorithm with the
    resolution pass before the row loop. *)
Definition transform_cached (questions : Questions) (raw_data : Table)
  : list (dict value) :=
  let cache := resolve_all (columns raw_data) questions in
  map (fun ir =>
         fold_left (process_question_cached cache (snd ir)) questions
                   [(py "response_id", VInt (Z.of_nat (fst ir) + 1))])
      (iterrows raw_data).

(** ** The wording of the specification, for comparison with the code *)

(** A header wins a strategy when it passes the test and no header to its
    left does. *)
Definition leftmost (test : str -> bool) (cols : list str) (col : str) : Prop :=
  exists i,
    nth_error cols i = Some col /\ test col = true /\
    forall j c, j < i -> nth_error cols j = Some c -> test c = false.

(** A strategy finds nothing. *)
Definition none_match (test : str -> bool) (cols : list str) : Prop :=
  forall c, In c cols -> test c = false.

Definition all_space (s : str) : Prop := forall c, In c s -> isspace c = true.

(** No whitespace at either end. *)
Definition no_edge_space (s : str) : Prop :=
  (forall c t, s = c :: t -> isspace c = false) /\
  (forall c t, s = t ++ [c] -> isspace c = false).

(** [t] is [text] without its leading and trailing whitespace. *)
Definition trimmed_of (text t : str) : Prop :=
  exists l r, text = l ++ t ++ r /\ all_space l /\ all_space r /\ no_edge_space t.

(** [r] is [s] with every maximal run of whitespace replaced by one
    space. *)
Inductive collapsed : str -> str -> Prop :=
| collapsed_nil : collapsed [] []
| collapsed_char c s r :
    isspace c = false -> collapsed s r -> collapsed (c :: s) (c :: r)
| collapsed_run c run s r :
    isspace c = true -> all_space run ->
    (forall d t, s = d :: t -> isspace d = false) ->
    collapsed s r ->
    collapsed (c :: run ++ s) (" "%char :: r).

(** The survivors of a semicolon-separated answer (section 4.2): split,
    clean each part, drop the parts that clean to null; null when nothing
    is left. *)
Definition choices_of_text (text : str) : option (list str) :=
  match flat_map (fun part => match _clean_value (CStr part) with
                              | Some s => [s]
                              | None => []
                              end)
                 (split ";" text) with
  | [] => None
  | survivors => Some survivors
  end.

(** The normal form as the specification words it, read literally:
    characters that are neither alphanumeric nor whitespace go. *)
Definition normalize_alnum_only (text : str) : str :=
  filter (fun c => isalnum c || isspace c) (sub_ws (lower (strip text))).

(** [clean] applied to the result of [clean]: null stays null. *)
Definition clean_again (r : option str) : option str :=
  match r with
  | None => _clean_value CNone
  | Some s => _clean_value (CStr s)
  end.

(** The questions without the one stored under [k]. *)
Definition without_key (k : str) (questions : Questions) : Questions :=
  filter (fun q => negb (str_eqb (fst q) k)) questions.

(** The text [_clean_value] examines, and the test it applies to it. *)
Definition cleaned_text (s : str) : str :=
  remove_char backslash_char (remove_char quote_char (strip s)).

Definition is_null_text (cleaned : str) : bool :=
  is_empty cleaned || existsb (str_eqb (lower cleaned)) null_words.

(** ** Views of the inner loop, for the proofs *)

(** [d[k] = v] when there is a value to store, nothing otherwise. *)
Definition assign {A} (k : str) (o : option A) (d : dict A) : dict A :=
  match o with
  | Some v => dict_set k v d
  | None => d
  end.

(** What the inner loop of [transform] does for one question and one row:
    [Some v] when it stores [v] under the question key, [None] when it
    leaves the record alone. *)
Definition question_outcome (cols : list str) (row : Series)
    (info : QuestionSpec) : option value :=
  match _find_column_for_question cols (question info) with
  | None => Some VNull
  | Some column_name =>
      if _skip_metadata_columns column_name then None
      else Some (value_transform (qtype info) (row_get row column_name))
  end.

(** One turn of a loop over the entries of a dictionary that stores, or
    skips, one value per entry under the entry's own key. *)
Definition assign_step {A B} (g : B -> option A) (d : dict A) (q : str * B)
  : dict A :=
  assign (fst q) (g (snd q)) d.

(** The record a row starts with. *)
Definition initial_record (index : nat) : dict value :=
  [(py "response_id", VInt (Z.of_nat index + 1))].

(** ** Text lemmas *)

Lemma str_eqb_refl (a : str) : str_eqb a a = true.
Proof.
  induction a as [|x a IH]; simpl; [reflexivity|].
  now rewrite Ascii.eqb_refl, IH.
Qed.

Lemma str_eqb_eq (a b : str) : str_eqb a b = true <-> a = b.
Proof.
  split; [|intros ->; apply str_eqb_refl].
  revert b; induction a as [|x a IH]; intros [|y b]; simpl; try discriminate; auto.
  intros H. apply andb_true_iff in H as [Hx Hab].
  apply Ascii.eqb_eq in Hx. subst. f_equal. auto.
Qed.

Lemma str_eqb_neq (a b : str) : str_eqb a b = false <-> a <> b.
Proof.
  split.
  - intros H E. apply str_eqb_eq in E. congruence.
  - intros H. destruct (str_eqb a b) eqn:E; [|reflexivity].
    apply str_eqb_eq in E. contradiction.
Qed.

Lemma str_eqb_sym (a b : str) : str_eqb a b = str_eqb b a.
Proof.
  destruct (str_eqb a b) eqn:E; symmetry.
  - apply str_eqb_eq in E. subst. apply str_eqb_refl.
  - apply str_eqb_neq. apply str_eqb_neq in E. congruence.
Qed.

Lemma contains_empty (hay : str) : contains [] hay = true.
Proof. destruct hay; reflexivity. Qed.

Lemma startswith_iff (p s : str) :
  startswith p s = true <-> exists b, s = p ++ b.
Proof.
  revert s. induction p as [|x p IH]; intros s; simpl.
  - split; [intros _; now exists s|reflexivity].
  - destruct s as [|y s].
    + split; [discriminate|intros (b & E); discriminate].
    + rewrite andb_true_iff, Ascii.eqb_eq, IH. split.
      * intros [-> (b & ->)]. now exists b.
      * intros (b & [= -> ->]). split; [reflexivity|now exists b].
Qed.

(** [contains] is the substring test. *)
Lemma contains_iff (needle hay : str) :
  contains needle hay = true <-> exists a b, hay = a ++ needle ++ b.
Proof.
  induction hay as [|c t IH]; simpl.
  - rewrite orb_false_r, startswith_iff. split.
    + intros (b & E). now exists [], b.
    + intros (a & b & E). destruct a; [now exists b|discriminate].
  - rewrite orb_true_iff, startswith_iff, IH. split.
    + intros [(b & E)|(a & b & E)].
      * now exists [], b.
      * exists (c :: a), b. simpl. now rewrite E.
    + intros (a & b & E). destruct a as [|d a]; simpl in E.
      * left. now exists b.
      * right. injection E as _ E. now exists a, b.
Qed.

Lemma split_not_nil (sep : ascii) (s : str) : split sep s <> [].
Proof.
  induction s as [|c t IH]; simpl; [discriminate|].
  destruct (Ascii.eqb c sep); [discriminate|].
  destruct (split sep t); [contradiction|discriminate].
Qed.

(** [split] cuts at every separator and nowhere else. *)
Lemma split_join (sep : ascii) (s : str) : join sep (split sep s) = s.
Proof.
  induction s as [|c t IH]; simpl; [reflexivity|].
  destruct (Ascii.eqb c sep) eqn:E.
  - apply Ascii.eqb_eq in E. subst c.
    pose proof (split_not_nil sep t) as Hn.
    destruct (split sep t) as [|p ps]; [contradiction|].
    simpl in *. now rewrite IH.
  - pose proof (split_not_nil sep t) as Hn.
    destruct (split sep t) as [|p ps]; [contradiction|].
    simpl in *. destruct ps; simpl; now rewrite <- IH.
Qed.

Lemma split_parts_without_sep (sep : ascii) (s p : str) :
  In p (split sep s) -> ~ In sep p.
Proof.
  revert p. induction s as [|c t IH]; simpl; intros p.
  - intros [<-|[]] [].
  - destruct (Ascii.eqb c sep) eqn:E.
    + intros [<-|H]; [intros []|now apply IH].
    + destruct (split sep t) as [|q qs].
      * intros [<-|[]] [->|[]]. now rewrite Ascii.eqb_refl in E.
      * intros [<-|H].
        -- intros [->|Hin]; [now rewrite Ascii.eqb_refl in E|].
           apply (IH q); [now left|exact Hin].
        -- apply IH. now right.
Qed.

(** ** The loop [first_col] *)

Lemma first_col_some (test : str -> bool) (cols : list str) (col : str) :
  first_col test cols = Some col <-> leftmost test cols col.
Proof.
  revert col. induction cols as [|h rest IH]; intros col; simpl.
  - split; [discriminate|]. intros (i & Hi & _). destruct i; discriminate.
  - destruct (test h) eqn:Hh.
    + split.
      * intros [= <-]. exists 0. repeat split; auto. intros j c Hj. lia.
      * intros (i & Hi & Hc & Hmin). destruct i as [|i]; simpl in Hi.
        -- congruence.
        -- specialize (Hmin 0 h (Nat.lt_0_succ i) eq_refl). congruence.
    + rewrite IH. split.
      * intros (i & Hi & Hc & Hmin). exists (S i). repeat split; auto.
        intros [|j] c Hj Hn; simpl in Hn.
        -- congruence.
        -- apply (Hmin j); [lia | exact Hn].
      * intros (i & Hi & Hc & Hmin). destruct i as [|i]; simpl in Hi.
        -- congruence.
        -- exists i. repeat split; auto.
           intros j c Hj Hn. apply (Hmin (S j)); [lia | exact Hn].
Qed.

Lemma first_col_none (test : str -> bool) (cols : list str) :
  first_col test cols = None <-> none_match test cols.
Proof.
  unfold none_match. induction cols as [|h rest IH]; simpl.
  - split; [intros _ c []|reflexivity].
  - destruct (test h) eqn:Hh.
    + split; [discriminate|]. intros H. specialize (H h (or_introl eq_refl)). congruence.
    + rewrite IH. split.
      * intros H c [<-|Hc]; auto.
      * intros H c Hc. apply H. now right.
Qed.

Lemma first_col_cases (test : str -> bool) (cols : list str) :
  (exists col, first_col test cols = Some col /\ leftmost test cols col)
  \/ (first_col test cols = None /\ none_match test cols).
Proof.
  destruct (first_col test cols) as [col|] eqn:E.
  - left. exists col. split; [reflexivity|]. now apply first_col_some.
  - right. split; [reflexivity|]. now apply first_col_none.
Qed.

(** ** Column resolution *)

(** C1. [_find_column_for_question] tries the exact test on the stripped
    header, then equality of normal forms, then containment of one normal
    form in the other, each only when the previous ones matched no header;
    within a strategy the leftmost matching header is returned, so an
    exact match beats every normalized or containment match; and the four
    cases are exhaustive, the last one being the answer [None]. *)
Theorem find_column_strategy_order (cols : list str) (q : str) :
  (forall col, leftmost (exact_match q) cols col ->
               _find_column_for_question cols q = Some col) /\
  (forall col, none_match (exact_match q) cols ->
               leftmost (normalized_match q) cols col ->
               _find_column_for_question cols q = Some col) /\
  (forall col, none_match (exact_match q) cols ->
               none_match (normalized_match q) cols ->
               leftmost (partial_match q) cols col ->
               _find_column_for_question cols q = Some col) /\
  (none_match (exact_match q) cols ->
   none_match (normalized_match q) cols ->
   none_match (partial_match q) cols ->
   _find_column_for_question cols q = None) /\
  ((exists col, leftmost (exact_match q) cols col)
   \/ (none_match (exact_match q) cols /\
       exists col, leftmost (normalized_match q) cols col)
   \/ (none_match (exact_match q) cols /\
       none_match (normalized_match q) cols /\
       exists col, leftmost (partial_match q) cols col)
   \/ (none_match (exact_match q) cols /\
       none_match (normalized_match q) cols /\
       none_match (partial_match q) cols)).
Proof.
  unfold _find_column_for_question.
  repeat split.
  - intros col H. apply first_col_some in H. now rewrite H.
  - intros col H1 H2. apply first_col_none in H1. apply first_col_some in H2.
    now rewrite H1, H2.
  - intros col H1 H2 H3. apply first_col_none in H1, H2. apply first_col_some in H3.
    now rewrite H1, H2.
  - intros H1 H2 H3. apply first_col_none in H1, H2, H3. now rewrite H1, H2.
  - destruct (first_col_cases (exact_match q) cols) as [(c & _ & Hc)|[_ H1]];
      [left; eauto|right].
    destruct (first_col_cases (normalized_match q) cols) as [(c & _ & Hc)|[_ H2]];
      [left; eauto|right].
    destruct (first_col_cases (partial_match q) cols) as [(c & _ & Hc)|[_ H3]];
      [left; eauto|right; auto].
Qed.

(** C10. When the normal form of the question text is empty and there is
    at least one header, resolution never answers [None]: the empty string
    is contained in every normal form, so the containment test holds for
    the first header, which is returned whenever the two earlier
    strategies found nothing. *)
Theorem empty_normal_form_always_resolves (q h : str) (rest : list str) :
  _normalize_question_text q = [] ->
  partial_match q h = true /\
  (exists col, _find_column_for_question (h :: rest) q = Some col) /\
  (none_match (exact_match q) (h :: rest) ->
   none_match (normalized_match q) (h :: rest) ->
   _find_column_for_question (h :: rest) q = Some h).
Proof.
  intros Hq.
  assert (Hp : partial_match q h = true).
  { unfold partial_match. rewrite Hq. now rewrite contains_empty. }
  split; [exact Hp|]. split.
  - unfold _find_column_for_question.
    destruct (first_col (exact_match q) (h :: rest)) as [c|]; [eauto|].
    destruct (first_col (normalized_match q) (h :: rest)) as [c|]; [eauto|].
    simpl. rewrite Hp. eauto.
  - intros H1 H2. apply first_col_none in H1, H2.
    unfold _find_column_for_question. rewrite H1, H2. simpl. now rewrite Hp.
Qed.

Lemma empty_normal_form_always_resolves_witness :
  _normalize_question_text (py "?!") = [] /\
  _find_column_for_question [py "Age"; py "City"] (py "?!") = Some (py "Age").
Proof.
  split; [reflexivity|].
  apply (empty_normal_form_always_resolves (py "?!") (py "Age") [py "City"] eq_refl).
  - intros c [<-|[<-|[]]]; reflexivity.
  - intros c [<-|[<-|[]]]; reflexivity.
Defined.

(** ** Stripping and collapsing whitespace *)

Lemma lstrip_split (s : str) :
  exists l, s = l ++ lstrip s /\ all_space l.
Proof.
  induction s as [|c t (l & Hl & Hs)]; simpl.
  - exists []. split; [reflexivity|intros c []].
  - destruct (isspace c) eqn:Hc.
    + exists (c :: l). split; [simpl; congruence|].
      intros d [<-|Hd]; auto.
    + exists []. split; [reflexivity|intros d []].
Qed.

Lemma lstrip_head (s : str) (c : ascii) (t : str) :
  lstrip s = c :: t -> isspace c = false.
Proof.
  induction s as [|d s IH]; simpl; [discriminate|].
  destruct (isspace d) eqn:Hd; [exact IH|].
  intros [= <- _]. exact Hd.
Qed.

Lemma lstrip_length (s : str) : List.length (lstrip s) <= List.length s.
Proof.
  induction s as [|c t IH]; simpl; [lia|].
  destruct (isspace c); simpl; lia.
Qed.

Lemma all_space_rev (s : str) : all_space s -> all_space (rev s).
Proof. intros H c Hc. apply H. now apply in_rev. Qed.

Lemma rstrip_split (s : str) :
  exists r, s = rstrip s ++ r /\ all_space r.
Proof.
  unfold rstrip. destruct (lstrip_split (rev s)) as (l & Hl & Hs).
  exists (rev l). split; [|now apply all_space_rev].
  rewrite <- rev_app_distr, <- Hl. symmetry. apply rev_involutive.
Qed.

Lemma rstrip_last (s : str) (c : ascii) (t : str) :
  rstrip s = t ++ [c] -> isspace c = false.
Proof.
  unfold rstrip. intros H.
  apply (f_equal (@rev ascii)) in H.
  rewrite rev_involutive, rev_app_distr in H. simpl in H.
  exact (lstrip_head _ _ _ H).
Qed.

Lemma strip_trimmed (text : str) : trimmed_of text (strip text).
Proof.
  unfold strip.
  destruct (lstrip_split text) as (l & Hl & Hsl).
  destruct (rstrip_split (lstrip text)) as (r & Hr & Hsr).
  exists l, r. repeat split; auto.
  - rewrite <- Hr. exact Hl.
  - intros c t E. rewrite E in Hr. simpl in Hr.
    exact (lstrip_head _ _ _ Hr).
  - intros c t E. exact (rstrip_last _ _ _ E).
Qed.

Lemma sub_ws_in_run (s : str) : sub_ws_from true s = sub_ws (lstrip s).
Proof.
  unfold sub_ws. induction s as [|c t IH]; simpl; [reflexivity|].
  destruct (isspace c) eqn:Hc; [exact IH|].
  simpl. now rewrite Hc.
Qed.

Lemma sub_ws_collapsed (s : str) : collapsed s (sub_ws s).
Proof.
  remember (List.length s) as n eqn:Hn.
  assert (Hle : List.length s <= n) by lia. clear Hn.
  revert s Hle. induction n as [|n IH]; intros [|c t] Hle; simpl in Hle;
    try lia; try constructor.
  unfold sub_ws. simpl. destruct (isspace c) eqn:Hc.
  - rewrite sub_ws_in_run.
    destruct (lstrip_split t) as (run & Ht & Hrun).
    rewrite Ht at 1. apply collapsed_run; auto.
    + intros d u E. exact (lstrip_head _ _ _ E).
    + apply IH. pose proof (lstrip_length t). lia.
  - apply collapsed_char; [exact Hc|]. apply IH. lia.
Qed.

Lemma normalize_unfold (text : str) :
  _normalize_question_text text = sub_nonword (sub_ws (lower (strip text))).
Proof. destruct text; reflexivity. Qed.

Lemma In_lstrip (c : ascii) (s : str) :
  isspace c = false -> In c s -> In c (lstrip s).
Proof.
  intros Hc. induction s as [|d s IH]; simpl; [tauto|].
  destruct (isspace d) eqn:Hd.
  - intros [->|H]; [congruence|auto].
  - auto.
Qed.

Lemma In_strip (c : ascii) (s : str) :
  isspace c = false -> In c s -> In c (strip s).
Proof.
  intros Hc H. unfold strip, rstrip.
  apply in_rev. rewrite rev_involutive.
  apply In_lstrip; [exact Hc|]. apply -> in_rev.
  now apply In_lstrip.
Qed.

Lemma In_sub_ws_from (b : bool) (c : ascii) (s : str) :
  isspace c = false -> In c s -> In c (sub_ws_from b s).
Proof.
  intros Hc. revert b. induction s as [|d s IH]; intros b; simpl; [tauto|].
  destruct (isspace d) eqn:Hd.
  - intros [->|H]; [congruence|].
    destruct b; [|right]; auto.
  - intros [->|H]; [now left|right; auto].
Qed.

Lemma lstrip_all_space (l s : str) : all_space l -> lstrip (l ++ s) = lstrip s.
Proof.
  induction l as [|c l IH]; simpl; intros H; [reflexivity|].
  rewrite (H c (or_introl eq_refl)). apply IH.
  intros d Hd. apply H. now right.
Qed.

Lemma lstrip_no_head (s : str) :
  (forall c t, s = c :: t -> isspace c = false) -> lstrip s = s.
Proof.
  destruct s as [|c t]; simpl; intros H; [reflexivity|].
  now rewrite (H c t eq_refl).
Qed.

Lemma rstrip_all_space (s r : str) : all_space r -> rstrip (s ++ r) = rstrip s.
Proof.
  intros H. unfold rstrip. rewrite rev_app_distr.
  now rewrite (lstrip_all_space (rev r) (rev s) (all_space_rev r H)).
Qed.

Lemma rstrip_no_last (s : str) :
  (forall c t, s = t ++ [c] -> isspace c = false) -> rstrip s = s.
Proof.
  intros H. unfold rstrip. rewrite lstrip_no_head; [apply rev_involutive|].
  intros c t E. apply (H c (rev t)).
  apply (f_equal (@rev ascii)) in E. rewrite rev_involutive in E.
  exact E.
Qed.

(** The trimmed form is unique: it is what [strip] returns. *)
Lemma trimmed_of_strip (text t : str) : trimmed_of text t -> t = strip text.
Proof.
  intros (l & r & -> & Hl & Hr & Hhead & Hlast). unfold strip.
  rewrite (lstrip_all_space l (t ++ r) Hl).
  destruct t as [|c u].
  - simpl. rewrite <- (app_nil_r r) at 1.
    rewrite (lstrip_all_space r [] Hr). reflexivity.
  - rewrite (lstrip_no_head ((c :: u) ++ r)).
    + rewrite (rstrip_all_space (c :: u) r Hr). symmetry.
      now apply rstrip_no_last.
    + intros d v [= <- _]. exact (Hhead c u eq_refl).
Qed.

(** The collapsed form is unique: it is what the scan of [re.sub]
    returns. *)
Lemma collapsed_sub_ws (s r : str) : collapsed s r -> r = sub_ws s.
Proof.
  induction 1 as [|c s r Hc _ IH|c run s r Hc Hrun Hs _ IH].
  - reflexivity.
  - unfold sub_ws. simpl. rewrite Hc. now rewrite IH.
  - unfold sub_ws. simpl. rewrite Hc. rewrite sub_ws_in_run.
    rewrite (lstrip_all_space run s Hrun), (lstrip_no_head s Hs).
    now rewrite IH.
Qed.

(** ** Normalization of question text *)

(** C2. At the text [a_b] the code does not do what the claim and the
    comment above the substitution (remove punctuation) say: the class
    [\w] of the pattern [[^\w\s]] contains the underscore, so the
    underscore stays, and the normal form is [a_b] where removing every
    character that is neither alphanumeric nor whitespace gives [ab]. *)
Lemma normalize_keeps_underscore :
  _normalize_question_text (py "a_b") = py "a_b" /\
  normalize_alnum_only (py "a_b") = py "ab" /\
  _normalize_question_text (py "a_b") <> normalize_alnum_only (py "a_b").
Proof. repeat split; try reflexivity. discriminate. Qed.

(** What the code computes: it trims leading and trailing whitespace,
    lowercases, replaces every maximal run of whitespace by one space,
    and removes the characters that the pattern [[^\w\s]] matches; the
    trimmed and the collapsed forms exist, and whichever they are, the
    result is the collapsed form filtered.  An underscore of the text is
    still in the result. *)
Theorem normalize_question_text_pipeline (text : str) :
  (exists t u, trimmed_of text t /\ collapsed (lower t) u) /\
  (forall t u,
     trimmed_of text t -> collapsed (lower t) u ->
     _normalize_question_text text =
       filter (fun c => isalnum c || is_code 95 c || isspace c) u) /\
  (In "_"%char text -> In "_"%char (_normalize_question_text text)).
Proof.
  split; [|split].
  - exists (strip text), (sub_ws (lower (strip text))).
    split; [apply strip_trimmed|apply sub_ws_collapsed].
  - intros t u Ht Hu.
    apply trimmed_of_strip in Ht. subst t.
    apply collapsed_sub_ws in Hu. subst u.
    apply normalize_unfold.
  - intros H. rewrite normalize_unfold. unfold sub_nonword.
    apply filter_In. split; [|reflexivity].
    apply In_sub_ws_from; [reflexivity|].
    change "_"%char with (lower_char "_"%char). apply in_map.
    now apply In_strip.
Qed.

(** ** Scalar cleaning *)

Lemma strip_fixed (t : str) : no_edge_space t -> strip t = t.
Proof.
  intros [Hhead Hlast]. unfold strip.
  assert (Hl : lstrip t = t).
  { destruct t as [|c u]; [reflexivity|]. simpl.
    now rewrite (Hhead c u eq_refl). }
  rewrite Hl. unfold rstrip.
  destruct (rev t) as [|c u] eqn:E; simpl.
  - apply (f_equal (@rev ascii)) in E. now rewrite rev_involutive in E.
  - assert (Et : t = rev u ++ [c]).
    { apply (f_equal (@rev ascii)) in E. now rewrite rev_involutive in E. }
    rewrite (Hlast c (rev u) Et). simpl. now symmetry.
Qed.

Lemma strip_idempotent (s : str) : strip (strip s) = strip s.
Proof.
  apply strip_fixed. destruct (strip_trimmed s) as (l & r & _ & _ & _ & H). exact H.
Qed.

Lemma In_strip_inv (c : ascii) (s : str) : In c (strip s) -> In c s.
Proof.
  intros H. destruct (strip_trimmed s) as (l & r & E & _).
  rewrite E. apply in_or_app. right. apply in_or_app. now left.
Qed.

Lemma remove_char_absent (ch : ascii) (s : str) :
  ~ In ch s -> remove_char ch s = s.
Proof.
  unfold remove_char. induction s as [|c t IH]; simpl; [reflexivity|].
  intros H. destruct (Ascii.eqb c ch) eqn:E; simpl.
  - apply Ascii.eqb_eq in E. subst. exfalso. apply H. now left.
  - f_equal. apply IH. intros Hin. apply H. now right.
Qed.

Lemma remove_char_not_In (ch : ascii) (s : str) : ~ In ch (remove_char ch s).
Proof.
  unfold remove_char. intros H. apply filter_In in H as [_ H].
  now rewrite Ascii.eqb_refl in H.
Qed.

Lemma remove_char_In (ch c : ascii) (s : str) :
  In c (remove_char ch s) -> In c s.
Proof. unfold remove_char. intros H. now apply filter_In in H. Qed.

Lemma clean_value_text (s : str) :
  _clean_value (CStr s) =
  if is_null_text (cleaned_text s) then None else Some (cleaned_text s).
Proof. reflexivity. Qed.

Lemma cleaned_text_no_artifacts (s : str) :
  ~ In quote_char (cleaned_text s) /\ ~ In backslash_char (cleaned_text s).
Proof.
  unfold cleaned_text. split.
  - intros H. apply remove_char_In in H. now apply remove_char_not_In in H.
  - apply remove_char_not_In.
Qed.

Lemma cleaned_text_without_artifacts (s : str) :
  ~ In quote_char s -> ~ In backslash_char s -> cleaned_text s = strip s.
Proof.
  intros Hq Hb. unfold cleaned_text.
  rewrite (remove_char_absent quote_char (strip s)).
  - apply remove_char_absent. intros H. apply Hb. now apply In_strip_inv.
  - intros H. apply Hq. now apply In_strip_inv.
Qed.

Lemma clean_value_some (v : cell) (s : str) :
  _clean_value v = Some s ->
  s = cleaned_text (str_of v) /\ is_null_text s = false /\ s <> [].
Proof.
  unfold _clean_value. destruct (pd_isna v); [discriminate|].
  fold (cleaned_text (str_of v)). fold (is_null_text (cleaned_text (str_of v))).
  destruct (is_null_text (cleaned_text (str_of v))) eqn:E; [discriminate|].
  intros [= <-]. repeat split; auto.
  intros H. rewrite H in E. discriminate.
Qed.

Lemma clean_value_of_trimmed_result (x y : str) :
  _clean_value (CStr x) = Some y ->
  _clean_value (CStr y) = if is_null_text (strip y) then None else Some (strip y).
Proof.
  intros H. apply clean_value_some in H as (Hy & _ & _). simpl in Hy.
  rewrite clean_value_text.
  destruct (cleaned_text_no_artifacts x) as [Hq Hb]. rewrite <- Hy in Hq, Hb.
  now rewrite (cleaned_text_without_artifacts y Hq Hb).
Qed.

(** C9, as the claim states it, fails: the quote is removed after the
    text has been stripped, so whitespace that stood behind a leading
    quote survives the first pass and is stripped by the second. *)
Lemma clean_not_idempotent :
  _clean_value (CStr (quote_char :: py " a")) = Some (py " a") /\
  clean_again (_clean_value (CStr (quote_char :: py " a"))) = Some (py "a") /\
  clean_again (_clean_value (CStr (quote_char :: py " a")))
    <> _clean_value (CStr (quote_char :: py " a")).
Proof. repeat split; try reflexivity. discriminate. Qed.

(** C9, amended. Cleaning the result of [clean] again changes nothing
    exactly when that result is null or has no leading or trailing
    whitespace; this is the case for every string that contains neither a
    double quote nor a backslash. *)
Theorem clean_idempotent_iff_trimmed (x : str) :
  (clean_again (_clean_value (CStr x)) = _clean_value (CStr x) <->
   (forall y, _clean_value (CStr x) = Some y -> strip y = y)) /\
  (~ In quote_char x -> ~ In backslash_char x ->
   clean_again (_clean_value (CStr x)) = _clean_value (CStr x)).
Proof.
  assert (Hiff : clean_again (_clean_value (CStr x)) = _clean_value (CStr x) <->
                 (forall y, _clean_value (CStr x) = Some y -> strip y = y)).
  { destruct (_clean_value (CStr x)) as [y|] eqn:E; simpl.
    - rewrite (clean_value_of_trimmed_result x y E). split.
      + intros H z [= <-]. destruct (is_null_text (strip y)); congruence.
      + intros H. rewrite (H y eq_refl).
        apply clean_value_some in E as (_ & Hn & _). now rewrite Hn.
    - split; [discriminate|reflexivity]. }
  split; [exact Hiff|].
  intros Hq Hb. apply Hiff. intros y Hy.
  apply clean_value_some in Hy as (Hy & _ & _). simpl in Hy.
  rewrite (cleaned_text_without_artifacts x Hq Hb) in Hy. subst y.
  apply strip_idempotent.
Qed.

(** ** Multiple choice answers *)

Lemma truthy_parts_clean (parts : list str) :
  truthy_parts (map (fun part => _clean_value (CStr part)) parts) =
  flat_map (fun part => match _clean_value (CStr part) with
                        | Some s => [s]
                        | None => []
                        end) parts.
Proof.
  unfold truthy_parts. induction parts as [|p ps IH]; simpl; [reflexivity|].
  rewrite IH. f_equal.
  destruct (_clean_value (CStr p)) as [s|] eqn:E; [|reflexivity].
  apply clean_value_some in E as (_ & _ & Hs).
  destruct s; [contradiction|reflexivity].
Qed.

Lemma process_multiple_choice_truthy (v : cell) :
  truthy v = true -> _process_multiple_choice v = choices_of_text (str_of v).
Proof.
  intros H. unfold _process_multiple_choice, choices_of_text. rewrite H. simpl.
  rewrite truthy_parts_clean.
  now destruct (flat_map _ _).
Qed.

Lemma process_multiple_choice_text (s : str) :
  _process_multiple_choice (CStr s) = choices_of_text s.
Proof.
  destruct s as [|c t]; [reflexivity|].
  now apply process_multiple_choice_truthy.
Qed.

(** C3. At the integer 0 the code does not do what the claim says: the
    value is present ([pd.isna] is false, and [_clean_value] keeps it as
    the text [0]), its textual form split and cleaned gives the one
    answer [0], but the guard [if not value] tests the truth value and
    answers [None]. *)
Lemma multiple_choice_zero_is_null :
  pd_isna (CInt 0) = false /\
  _clean_value (CInt 0) = Some (py "0") /\
  choices_of_text (str_of (CInt 0)) = Some [py "0"] /\
  _process_multiple_choice (CInt 0) = None.
Proof. repeat split. Qed.

Lemma strip_all_space (s : str) : all_space s -> strip s = [].
Proof.
  intros H. unfold strip. rewrite <- (app_nil_r s).
  rewrite (lstrip_all_space s [] H). reflexivity.
Qed.

Lemma clean_value_blank (part : str) :
  all_space part -> _clean_value (CStr part) = None.
Proof.
  intros H. rewrite clean_value_text. unfold cleaned_text.
  now rewrite (strip_all_space part H).
Qed.

(** C8. The multiple choice transform splits the raw text before any
    cleaning and cleans the parts afterwards: whenever it gets past its
    guard it returns the cleaned, non-null parts of the split of the
    uncleaned text, and it does so on every text value; a part that is
    empty or all whitespace cleans to null and is dropped.  The answer to
    [a;b;;  c ] is the list [a], [b], [c]; and cleaning the whole text
    first would give another answer, as [a; b] shows, whose second part
    would keep its leading space. *)
Theorem multiple_choice_splits_then_cleans :
  (forall v, _process_multiple_choice v =
             if truthy v then choices_of_text (str_of v) else None) /\
  (forall s, _process_multiple_choice (CStr s) = choices_of_text s) /\
  (forall part, all_space part -> _clean_value (CStr part) = None) /\
  _process_multiple_choice (CStr (py "a;b;;  c ")) = Some [py "a"; py "b"; py "c"] /\
  _process_multiple_choice (CStr (py "a; b")) = Some [py "a"; py "b"] /\
  option_map (split ";") (_clean_value (CStr (py "a; b"))) = Some [py "a"; py " b"].
Proof.
  split; [|split; [exact process_multiple_choice_text|]].
  - intros v. destruct (truthy v) eqn:E.
    + now apply process_multiple_choice_truthy.
    + unfold _process_multiple_choice. now rewrite E.
  - split; [exact clean_value_blank|]. repeat split.
Qed.

(** ** Records as dictionaries *)

Lemma dict_get_set_same {A} (k : str) (v : A) (d : dict A) :
  dict_get k (dict_set k v d) = Some v.
Proof.
  induction d as [|[k' v'] t IH]; simpl.
  - now rewrite str_eqb_refl.
  - destruct (str_eqb k' k) eqn:E; simpl.
    + now rewrite str_eqb_refl.
    + now rewrite E.
Qed.

Lemma dict_get_set_other {A} (k k0 : str) (v : A) (d : dict A) :
  k <> k0 -> dict_get k (dict_set k0 v d) = dict_get k d.
Proof.
  intros Hk. induction d as [|[k' v'] t IH]; simpl.
  - assert (E : str_eqb k0 k = false) by (apply str_eqb_neq; congruence).
    now rewrite E.
  - destruct (str_eqb k' k0) eqn:E0; simpl.
    + apply str_eqb_eq in E0. subst k'.
      assert (E : str_eqb k0 k = false) by (apply str_eqb_neq; congruence).
      now rewrite E.
    + destruct (str_eqb k' k); [reflexivity|exact IH].
Qed.

Lemma dict_get_assign_same {A} (k : str) (o : option A) (d : dict A) :
  dict_get k (assign k o d) =
  match o with Some v => Some v | None => dict_get k d end.
Proof. destruct o; simpl; [apply dict_get_set_same|reflexivity]. Qed.

Lemma dict_get_assign_other {A} (k k0 : str) (o : option A) (d : dict A) :
  k <> k0 -> dict_get k (assign k0 o d) = dict_get k d.
Proof. intros H. destruct o; simpl; [now apply dict_get_set_other|reflexivity]. Qed.

Section AssignLoop.

(** A loop over the entries of a dictionary that stores, or skips, one
    value per entry under the entry's own key. *)
Context {A B : Type} (g : B -> option A).

Lemma assign_loop_other (k : str) (qs : dict B) (d : dict A) :
  ~ In k (map fst qs) ->
  dict_get k (fold_left (assign_step g) qs d) = dict_get k d.
Proof.
  revert d. induction qs as [|[k0 b0] rest IH]; intros d Hk; simpl in *.
  - reflexivity.
  - rewrite IH by tauto. unfold assign_step. simpl.
    apply dict_get_assign_other. intros ->. tauto.
Qed.

Lemma assign_loop_in (k : str) (b : B) (qs : dict B) (d : dict A) :
  NoDup (map fst qs) -> In (k, b) qs ->
  dict_get k (fold_left (assign_step g) qs d) =
  match g b with Some v => Some v | None => dict_get k d end.
Proof.
  revert d. induction qs as [|[k0 b0] rest IH]; intros d Hnd Hin; simpl in *.
  - contradiction.
  - inversion Hnd as [|x l Hnot Hnd']; subst.
    destruct Hin as [[= -> ->]|Hin].
    + rewrite assign_loop_other by exact Hnot.
      unfold assign_step. simpl. apply dict_get_assign_same.
    + rewrite (IH _ Hnd' Hin).
      assert (Hk : k <> k0).
      { intros ->. apply Hnot. change k0 with (fst (k0, b)). now apply in_map. }
      unfold assign_step at 1. simpl.
      now rewrite (dict_get_assign_other k k0 (g b0) d Hk).
Qed.

End AssignLoop.

Lemma fold_left_ext_in {S T : Type} (f g : S -> T -> S) (l : list T) (s : S) :
  (forall x a, In a l -> f x a = g x a) ->
  fold_left f l s = fold_left g l s.
Proof.
  revert s. induction l as [|a l IH]; intros s H; simpl; [reflexivity|].
  rewrite (H s a (or_introl eq_refl)). apply IH.
  intros x b Hb. apply H. now right.
Qed.

Lemma NoDup_keys_filter {B} (p : str * B -> bool) (qs : dict B) :
  NoDup (map fst qs) -> NoDup (map fst (filter p qs)).
Proof.
  induction qs as [|q rest IH]; simpl; intros H; [constructor|].
  inversion H as [|x l Hnot Hnd]; subst.
  destruct (p q); simpl; [|auto].
  constructor; [|auto].
  intros Hin. apply Hnot. apply in_map_iff in Hin as (q' & E & Hq').
  apply filter_In in Hq' as [Hq' _]. rewrite <- E. now apply in_map.
Qed.

(** ** The transformation loop *)

Lemma value_transform_branches (question_type : str) (raw_value : cell)
    (k : str) (d : dict value) :
  (if str_eqb question_type (py "multiple_choice") then
     dict_set k (of_choices (_process_multiple_choice raw_value)) d
   else if str_eqb question_type (py "open_text") then
     dict_set k (of_clean (_clean_value raw_value)) d
   else if str_eqb question_type (py "single_choice") then
     dict_set k (of_clean (_clean_value raw_value)) d
   else if str_eqb question_type (py "identifier") then
     dict_set k (of_clean (_clean_value raw_value)) d
   else
     dict_set k (of_clean (_clean_value raw_value)) d)
  = dict_set k (value_transform question_type raw_value) d.
Proof.
  unfold value_transform.
  destruct (str_eqb question_type (py "multiple_choice")); [reflexivity|].
  destruct (str_eqb question_type (py "open_text")); [reflexivity|].
  destruct (str_eqb question_type (py "single_choice")); [reflexivity|].
  destruct (str_eqb question_type (py "identifier")); reflexivity.
Qed.

Lemma process_question_outcome (cols : list str) (row : Series)
    (d : dict value) (q : str * QuestionSpec) :
  process_question cols row d q =
  assign_step (question_outcome cols row) d q.
Proof.
  unfold process_question, assign_step, question_outcome.
  destruct (_find_column_for_question cols (question (snd q))) as [col|];
    [|reflexivity].
  destruct (_skip_metadata_columns col); [reflexivity|].
  simpl. apply value_transform_branches.
Qed.

Lemma transform_row_outcome (questions : Questions) (cols : list str)
    (index : nat) (row : Series) :
  transform_row questions cols index row =
  fold_left (assign_step (question_outcome cols row)) questions
            (initial_record index).
Proof.
  unfold transform_row. apply fold_left_ext_in.
  intros d q _. apply process_question_outcome.
Qed.

Lemma transform_row_get_in (questions : Questions) (cols : list str)
    (index : nat) (row : Series) (k : str) (info : QuestionSpec) :
  NoDup (map fst questions) -> In (k, info) questions ->
  dict_get k (transform_row questions cols index row) =
  match question_outcome cols row info with
  | Some v => Some v
  | None => dict_get k (initial_record index)
  end.
Proof.
  intros Hnd Hin. rewrite transform_row_outcome.
  now apply assign_loop_in.
Qed.

Lemma transform_row_get_other (questions : Questions) (cols : list str)
    (index : nat) (row : Series) (k : str) :
  ~ In k (map fst questions) ->
  dict_get k (transform_row questions cols index row) =
  dict_get k (initial_record index).
Proof.
  intros H. rewrite transform_row_outcome. now apply assign_loop_other.
Qed.

Lemma resolve_all_get (cols : list str) (questions : Questions)
    (k : str) (info : QuestionSpec) :
  NoDup (map fst questions) -> In (k, info) questions ->
  dict_get k (resolve_all cols questions) =
  Some (_find_column_for_question cols (question info)).
Proof.
  intros Hnd Hin. unfold resolve_all.
  change (fun cache q => dict_set (fst q)
            (_find_column_for_question cols (question (snd q))) cache)
    with (assign_step
            (fun info => Some (_find_column_for_question cols (question info)))).
  now rewrite (assign_loop_in _ k info questions [] Hnd Hin).
Qed.

Lemma transform_records (questions : Questions) (raw_data : Table)
    (record : dict value) :
  In record (transform questions raw_data) ->
  exists index row,
    In (index, row) (iterrows raw_data) /\
    record = transform_row questions (columns raw_data) index row.
Proof.
  unfold transform. intros H. apply in_map_iff in H as ([index row] & E & Hin).
  exists index, row. split; [exact Hin|now symmetry].
Qed.

Lemma transform_length (questions : Questions) (raw_data : Table) :
  List.length (transform questions raw_data) = List.length (data raw_data).
Proof.
  unfold transform, iterrows.
  rewrite length_map, length_combine, length_seq, length_map. lia.
Qed.

Lemma process_question_cached_agrees (questions : Questions) (cols : list str)
    (row : Series) (d : dict value) (q : str * QuestionSpec) :
  NoDup (map fst questions) -> In q questions ->
  process_question cols row d q =
  process_question_cached (resolve_all cols questions) row d q.
Proof.
  intros Hnd Hin. destruct q as [k info].
  unfold process_question_cached. simpl fst. simpl snd.
  rewrite (resolve_all_get cols questions k info Hnd Hin).
  rewrite process_question_outcome. unfold assign_step, question_outcome. simpl.
  destruct (_find_column_for_question cols (question info)) as [col|];
    [|reflexivity].
  now destruct (_skip_metadata_columns col).
Qed.

(** C4. The records [transform] builds, resolving every question again
    for every row, are the records of the reference engine that resolves
    each question once before the row loop and reads the stored result in
    the loop; the stored result for a question is the column the loop
    would find, whatever the row. *)
Theorem transform_agrees_with_cached (questions : Questions) (raw_data : Table) :
  NoDup (map fst questions) ->
  transform questions raw_data = transform_cached questions raw_data /\
  (forall k info, In (k, info) questions ->
     dict_get k (resolve_all (columns raw_data) questions) =
     Some (_find_column_for_question (columns raw_data) (question info))).
Proof.
  intros Hnd. split.
  - unfold transform, transform_cached. apply map_ext. intros [index row].
    unfold transform_row. simpl. apply fold_left_ext_in.
    intros d q Hq. now apply process_question_cached_agrees.
  - intros k info Hin. now apply resolve_all_get.
Qed.

Lemma transform_agrees_with_cached_witness :
  transform
    [(py "age", mkQuestion (py "Your age") (py "open_text"));
     (py "fav", mkQuestion (py "Favorite colors") (py "multiple_choice"))]
    (mkTable [py "Favorite Colors?"; py " Your age "]
             [[CStr (py "Red; Blue"); CInt 31]; [CNaN; CInt 27]])
  = transform_cached
    [(py "age", mkQuestion (py "Your age") (py "open_text"));
     (py "fav", mkQuestion (py "Favorite colors") (py "multiple_choice"))]
    (mkTable [py "Favorite Colors?"; py " Your age "]
             [[CStr (py "Red; Blue"); CInt 31]; [CNaN; CInt 27]]).
Proof.
  apply (transform_agrees_with_cached
           [(py "age", mkQuestion (py "Your age") (py "open_text"));
            (py "fav", mkQuestion (py "Favorite colors") (py "multiple_choice"))]
           (mkTable [py "Favorite Colors?"; py " Your age "]
                    [[CStr (py "Red; Blue"); CInt 31]; [CNaN; CInt 27]])).
  simpl. repeat constructor; simpl; intuition discriminate.
Defined.

(** ** Metadata columns *)

Lemma skip_metadata_iff (col_name : str) :
  _skip_metadata_columns col_name = true <->
  exists indicator,
    In indicator metadata_indicators /\
    contains indicator (lower col_name) = true.
Proof. unfold _skip_metadata_columns. apply existsb_exists. Qed.

(** C5, as the claim states it, fails for one question key: every record
    is created with the key [response_id], so a question stored under
    that very key and resolved to a metadata column leaves the key in the
    record, with the row number as its value. *)
Lemma metadata_question_named_response_id :
  _find_column_for_question [py "ID"] (py "ID") = Some (py "ID") /\
  _skip_metadata_columns (py "ID") = true /\
  transform [(py "response_id", mkQuestion (py "ID") (py "identifier"))]
            (mkTable [py "ID"] [[CInt 7]])
  = [[(py "response_id", VInt 1)]] /\
  dict_get (py "response_id") [(py "response_id", VInt 1)] = Some (VInt 1).
Proof. repeat split. Qed.

(** C5, amended. A question whose key is not [response_id] and whose
    resolved column header, lowercased, contains one of the metadata
    indicators has its key in no record of the output: the key is absent,
    not present with null. *)
Theorem metadata_question_is_omitted (questions : Questions) (raw_data : Table)
    (k : str) (info : QuestionSpec) (col : str) :
  NoDup (map fst questions) ->
  In (k, info) questions ->
  k <> py "response_id" ->
  _find_column_for_question (columns raw_data) (question info) = Some col ->
  (exists indicator,
     In indicator metadata_indicators /\
     contains indicator (lower col) = true) ->
  forall record,
    In record (transform questions raw_data) ->
    dict_get k record = None /\ dict_mem k record = false.
Proof.
  intros Hnd Hin Hk Hcol Hmeta record Hrec.
  apply skip_metadata_iff in Hmeta.
  apply transform_records in Hrec as (index & row & _ & ->).
  assert (E : dict_get k (transform_row questions (columns raw_data) index row) = None).
  { rewrite (transform_row_get_in questions (columns raw_data) index row k info Hnd Hin).
    unfold question_outcome. rewrite Hcol, Hmeta. simpl.
    assert (Ek : str_eqb (py "response_id") k = false)
      by (apply str_eqb_neq; congruence).
    unfold py in Ek. simpl in Ek. now rewrite Ek. }
  split; [exact E|]. unfold dict_mem. now rewrite E.
Qed.

Lemma metadata_question_is_omitted_witness :
  transform [(py "q1", mkQuestion (py "Your Name?") (py "open_text"))]
            (mkTable [py "Your Name?"; py "Email"]
                     [[CStr (py "Alice Smith"); CStr (py "a@x.com")]])
  = [[(py "response_id", VInt 1)]] /\
  dict_get (py "q1") [(py "response_id", VInt 1)] = None /\
  dict_mem (py "q1") [(py "response_id", VInt 1)] = false.
Proof.
  split; [reflexivity|].
  apply (metadata_question_is_omitted
           [(py "q1", mkQuestion (py "Your Name?") (py "open_text"))]
           (mkTable [py "Your Name?"; py "Email"]
                    [[CStr (py "Alice Smith"); CStr (py "a@x.com")]])
           (py "q1") (mkQuestion (py "Your Name?") (py "open_text"))
           (py "Your Name?")).
  - simpl. repeat constructor; simpl; intuition discriminate.
  - left. reflexivity.
  - discriminate.
  - reflexivity.
  - exists (py "name"). split; [simpl; tauto|reflexivity].
  - left. reflexivity.
Defined.

(** ** Missing cells and unresolved questions *)

Lemma value_transform_missing (question_type : str) (raw_value : cell) :
  pd_isna raw_value = true ->
  str_eqb question_type (py "multiple_choice") = false \/ raw_value <> CNaT ->
  value_transform question_type raw_value = VNull.
Proof.
  unfold value_transform.
  destruct raw_value; try discriminate; intros _ H;
    destruct (str_eqb question_type (py "multiple_choice")); try reflexivity.
  destruct H as [H|H]; [discriminate|contradiction].
Qed.

Lemma transform_nth (questions : Questions) (raw_data : Table)
    (i index : nat) (row : Series) :
  nth_error (iterrows raw_data) i = Some (index, row) ->
  nth_error (transform questions raw_data) i =
  Some (transform_row questions (columns raw_data) index row).
Proof.
  intros H. unfold transform. rewrite nth_error_map, H. reflexivity.
Qed.

(** C6. At an empty cell of a date column under a question of type
    [multiple_choice] the code does not do what the claim says: the cell
    is missing ([pd.isna] is true, and [_clean_value] answers [None] for
    it), but [_process_multiple_choice] does not ask [pd.isna]; its guard
    lets the cell pass, since NaT is true in a Boolean context, and the
    text [NaT] is no placeholder, so the record holds the list with the
    one answer [NaT] and not null. *)
Lemma missing_date_cell_under_multiple_choice :
  pd_isna CNaT = true /\
  _clean_value CNaT = None /\
  _process_multiple_choice CNaT = Some [py "NaT"] /\
  _find_column_for_question [py "Visit dates"] (py "Visit dates")
  = Some (py "Visit dates") /\
  _skip_metadata_columns (py "Visit dates") = false /\
  row_get [(py "Visit dates", CNaT)] (py "Visit dates") = CNaT /\
  transform [(py "visits", mkQuestion (py "Visit dates") (py "multiple_choice"))]
            (mkTable [py "Visit dates"] [[CNaT]])
  = [[(py "response_id", VInt 1); (py "visits", VList [py "NaT"])]].
Proof. repeat split. Qed.

(** Where a missing cell does give null: under every declared type other
    than [multiple_choice], and under [multiple_choice] when the cell is
    not NaT. *)
Lemma missing_cell_gives_null_except_nat (questions : Questions) (raw_data : Table)
    (k : str) (info : QuestionSpec) (col : str)
    (i index : nat) (row : Series) :
  NoDup (map fst questions) ->
  In (k, info) questions ->
  _find_column_for_question (columns raw_data) (question info) = Some col ->
  _skip_metadata_columns col = false ->
  nth_error (iterrows raw_data) i = Some (index, row) ->
  pd_isna (row_get row col) = true ->
  str_eqb (qtype info) (py "multiple_choice") = false \/ row_get row col <> CNaT ->
  exists record,
    nth_error (transform questions raw_data) i = Some record /\
    dict_get k record = Some VNull.
Proof.
  intros Hnd Hin Hcol Hmeta Hrow Hna Hnat.
  exists (transform_row questions (columns raw_data) index row).
  split; [now apply transform_nth|].
  rewrite (transform_row_get_in questions (columns raw_data) index row k info Hnd Hin).
  unfold question_outcome. rewrite Hcol, Hmeta.
  now rewrite (value_transform_missing (qtype info) (row_get row col) Hna Hnat).
Qed.

Lemma without_key_in (k k' : str) (info : QuestionSpec) (questions : Questions) :
  k' <> k -> In (k', info) questions -> In (k', info) (without_key k questions).
Proof.
  intros Hk Hin. unfold without_key. apply filter_In. split; [exact Hin|].
  simpl. apply negb_true_iff. now apply str_eqb_neq.
Qed.

Lemma without_key_keys (k k' : str) (questions : Questions) :
  In k' (map fst (without_key k questions)) -> In k' (map fst questions).
Proof.
  unfold without_key. intros H. apply in_map_iff in H as (q & E & Hq).
  apply filter_In in Hq as [Hq _]. rewrite <- E. now apply in_map.
Qed.

Lemma str_eq_dec (a b : str) : {a = b} + {a <> b}.
Proof.
  destruct (str_eqb a b) eqn:E.
  - left. now apply str_eqb_eq.
  - right. now apply str_eqb_neq.
Qed.

Lemma transform_row_without_key (questions : Questions) (cols : list str)
    (index : nat) (row : Series) (k k' : str) :
  NoDup (map fst questions) -> k' <> k ->
  dict_get k' (transform_row questions cols index row) =
  dict_get k' (transform_row (without_key k questions) cols index row).
Proof.
  intros Hnd Hk.
  destruct (in_dec str_eq_dec k' (map fst questions)) as [Hin|Hout].
  - apply in_map_iff in Hin as ([k0 info] & E & Hin). simpl in E. subst k0.
    rewrite (transform_row_get_in questions cols index row k' info Hnd Hin).
    rewrite (transform_row_get_in (without_key k questions) cols index row k' info);
      [reflexivity|now apply NoDup_keys_filter|now apply without_key_in].
  - rewrite transform_row_get_other by exact Hout.
    rewrite transform_row_get_other; [reflexivity|].
    intros H. apply Hout. now apply without_key_keys in H.
Qed.

(** C7. A question that no strategy resolves does not stop the run: there
    is one record per row, every record holds null under the key of that
    question, and under every other key each record holds what it would
    hold had the unresolved question not been in the schema. *)
Theorem unresolved_question_gives_null (questions : Questions) (raw_data : Table)
    (k : str) (info : QuestionSpec) :
  NoDup (map fst questions) ->
  In (k, info) questions ->
  _find_column_for_question (columns raw_data) (question info) = None ->
  List.length (transform questions raw_data) = List.length (data raw_data) /\
  (forall record, In record (transform questions raw_data) ->
                  dict_get k record = Some VNull) /\
  (forall i k', k' <> k ->
     option_map (dict_get k') (nth_error (transform questions raw_data) i) =
     option_map (dict_get k')
                (nth_error (transform (without_key k questions) raw_data) i)).
Proof.
  intros Hnd Hin Hnone. split; [apply transform_length|]. split.
  - intros record Hrec.
    apply transform_records in Hrec as (index & row & _ & ->).
    rewrite (transform_row_get_in questions (columns raw_data) index row k info Hnd Hin).
    unfold question_outcome. now rewrite Hnone.
  - intros i k' Hk. unfold transform. rewrite !nth_error_map.
    destruct (nth_error (iterrows raw_data) i) as [[index row]|]; simpl;
      [|reflexivity].
    f_equal. now apply transform_row_without_key.
Qed.

Lemma unresolved_question_gives_null_witness :
  transform [(py "pet", mkQuestion (py "Your pet") (py "open_text"));
             (py "age", mkQuestion (py "Age") (py "open_text"))]
            (mkTable [py "Age"] [[CInt 31]; [CInt 27]])
  = [[(py "response_id", VInt 1); (py "pet", VNull); (py "age", VStr (py "31"))];
     [(py "response_id", VInt 2); (py "pet", VNull); (py "age", VStr (py "27"))]] /\
  List.length
    (transform [(py "pet", mkQuestion (py "Your pet") (py "open_text"));
                (py "age", mkQuestion (py "Age") (py "open_text"))]
               (mkTable [py "Age"] [[CInt 31]; [CInt 27]])) = 2.
Proof.
  split; [reflexivity|].
  apply (unresolved_question_gives_null
           [(py "pet", mkQuestion (py "Your pet") (py "open_text"));
            (py "age", mkQuestion (py "Age") (py "open_text"))]
           (mkTable [py "Age"] [[CInt 31]; [CInt 27]])
           (py "pet") (mkQuestion (py "Your pet") (py "open_text"))).
  - simpl. repeat constructor; simpl; intuition discriminate.
  - left. reflexivity.
  - reflexivity.
Defined.

(** ** Response identifiers *)

Lemma combine_seq_nth {T} (l : list T) (a n i index : nat) (x : T) :
  nth_error (combine (seq a n) l) i = Some (index, x) -> index = a + i.
Proof.
  revert a l i. induction n as [|n IH]; intros a l i; simpl.
  - destruct i; discriminate.
  - destruct l as [|y l]; [destruct i; discriminate|].
    destruct i as [|i]; simpl.
    + intros [= <- _]. lia.
    + intros H. apply IH in H. lia.
Qed.

(** When no question is stored under the key [response_id], the record of
    the row at position [i] (counted from 0) holds [i + 1] under that
    key, whatever the cells of the table are. *)
Theorem response_id_is_row_number (questions : Questions) (raw_data : Table)
    (i : nat) (record : dict value) :
  ~ In (py "response_id") (map fst questions) ->
  nth_error (transform questions raw_data) i = Some record ->
  dict_get (py "response_id") record = Some (VInt (Z.of_nat i + 1)).
Proof.
  intros Hk Hrec. unfold transform in Hrec. rewrite nth_error_map in Hrec.
  destruct (nth_error (iterrows raw_data) i) as [[index row]|] eqn:E;
    [|discriminate].
  simpl in Hrec. injection Hrec as <-.
  apply combine_seq_nth in E. simpl in E. subst index.
  now rewrite transform_row_get_other.
Qed.

Lemma response_id_is_row_number_witness :
  dict_get (py "response_id")
           [(py "response_id", VInt 2); (py "age", VStr (py "27"))]
  = Some (VInt 2).
Proof.
  apply (response_id_is_row_number
           [(py "age", mkQuestion (py "Age") (py "open_text"))]
           (mkTable [py "Age"] [[CInt 31]; [CInt 27]])
           1 [(py "response_id", VInt 2); (py "age", VStr (py "27"))]).
  - simpl. intuition discriminate.
  - reflexivity.
Defined.

(** ** Worked examples of the specification *)

(** An exact match to the right beats a normalized match to the left. *)
Example exact_beats_normalized :
  _find_column_for_question [py "AGE"; py " Age "; py "Age"] (py "Age")
  = Some (py " Age ").
Proof. reflexivity. Qed.

(** Among several headers with the same normal form the leftmost wins. *)
Example leftmost_normalized_wins :
  _find_column_for_question [py "City"; py "your AGE?"; py "Your age"] (py "Your Age")
  = Some (py "your AGE?").
Proof. reflexivity. Qed.

(** Containment is tried last and in both directions. *)
Example containment_both_directions :
  _find_column_for_question [py "City"; py "Age"] (py "What is your age?")
  = Some (py "Age") /\
  _find_column_for_question [py "City"; py "What is your age (years)"] (py "your age")
  = Some (py "What is your age (years)").
Proof. split; reflexivity. Qed.

(** The end-to-end example of the specification for multiple choice. *)
Example favorite_colors :
  transform [(py "fav", mkQuestion (py "Favorite colors") (py "multiple_choice"))]
            (mkTable [py "Favorite colors"] [[CStr (py "Red; Blue; ")]])
  = [[(py "response_id", VInt 1); (py "fav", VList [py "Red"; py "Blue"])]].
Proof. reflexivity. Qed.

(** The metadata test is a plain substring test. *)
Example identify_is_metadata :
  _skip_metadata_columns (py "Identify your role") = true /\
  _skip_metadata_columns (py "Favorite colors") = false.
Proof. split; reflexivity. Qed.

(** Placeholders clean to null, other text is kept as it is. *)
Example clean_value_examples :
  _clean_value (CStr (py " NaN ")) = None /\
  _clean_value (CStr (py "-")) = None /\
  _clean_value (CStr (py " Alice Smith ")) = Some (py "Alice Smith") /\
  _clean_value (CInt 0) = Some (py "0") /\
  _clean_value CNaN = None.
Proof. repeat split. Qed.

(** ** More on column resolution *)

Lemma startswith_refl (s : str) : startswith s s = true.
Proof. apply startswith_iff. exists []. now rewrite app_nil_r. Qed.

Lemma contains_refl (s : str) : contains s s = true.
Proof. destruct s; simpl; [reflexivity|]. now rewrite Ascii.eqb_refl, startswith_refl. Qed.

Lemma normalize_strip (text : str) :
  _normalize_question_text (strip text) = _normalize_question_text text.
Proof. rewrite !normalize_unfold. now rewrite strip_idempotent. Qed.

Lemma exact_match_normalized (q col : str) :
  exact_match q col = true -> normalized_match q col = true.
Proof.
  unfold exact_match, normalized_match. intros H.
  apply str_eqb_eq in H. subst q. apply str_eqb_eq.
  symmetry. apply normalize_strip.
Qed.

Lemma normalized_match_partial (q col : str) :
  normalized_match q col = true -> partial_match q col = true.
Proof.
  unfold normalized_match, partial_match. intros H.
  apply str_eqb_eq in H. rewrite H. now rewrite contains_refl.
Qed.

Lemma first_col_In (test : str -> bool) (cols : list str) (col : str) :
  first_col test cols = Some col -> In col cols /\ test col = true.
Proof.
  intros H. apply first_col_some in H as (i & Hi & Hc & _).
  split; [now apply nth_error_In in Hi|exact Hc].
Qed.

Lemma find_column_cases (cols : list str) (q col : str) :
  _find_column_for_question cols q = Some col ->
  In col cols /\
  (exact_match q col = true \/
   normalized_match q col = true \/
   partial_match q col = true).
Proof.
  unfold _find_column_for_question.
  destruct (first_col (exact_match q) cols) as [c|] eqn:E1.
  - intros [= <-]. apply first_col_In in E1 as [? ?]. auto.
  - destruct (first_col (normalized_match q) cols) as [c|] eqn:E2.
    + intros [= <-]. apply first_col_In in E2 as [? ?]. auto.
    + intros E3. apply first_col_In in E3 as [? ?]. auto.
Qed.

(** The answer of [_find_column_for_question] is [None] exactly when the
    containment test fails for every header: the two earlier tests are
    special cases of it, so they add no resolvable question. *)
Theorem find_column_none_iff (cols : list str) (q : str) :
  _find_column_for_question cols q = None <->
  none_match (partial_match q) cols.
Proof.
  split.
  - unfold _find_column_for_question.
    destruct (first_col (exact_match q) cols); [discriminate|].
    destruct (first_col (normalized_match q) cols); [discriminate|].
    apply first_col_none.
  - intros H.
    assert (H2 : none_match (normalized_match q) cols).
    { intros c Hc. destruct (normalized_match q c) eqn:E; [|reflexivity].
      apply normalized_match_partial in E. rewrite (H c Hc) in E. discriminate. }
    assert (H1 : none_match (exact_match q) cols).
    { intros c Hc. destruct (exact_match q c) eqn:E; [|reflexivity].
      apply exact_match_normalized in E. rewrite (H2 c Hc) in E. discriminate. }
    apply first_col_none in H, H1, H2.
    unfold _find_column_for_question. now rewrite H1, H2.
Qed.

(** A column that [_find_column_for_question] returns is one of the
    headers it was given, and the normal form of its text contains the
    normal form of the question or is contained in it. *)
Theorem find_column_is_a_header (cols : list str) (q col : str) :
  _find_column_for_question cols q = Some col ->
  In col cols /\
  (contains (_normalize_question_text q) (_normalize_question_text col) = true \/
   contains (_normalize_question_text col) (_normalize_question_text q) = true).
Proof.
  intros H. apply find_column_cases in H as [Hin H]. split; [exact Hin|].
  assert (Hp : partial_match q col = true).
  { destruct H as [H|[H|H]]; auto using normalized_match_partial, exact_match_normalized. }
  unfold partial_match in Hp. now apply orb_true_iff in Hp.
Qed.

Lemma find_column_is_a_header_witness :
  In (py "Your age (years)") [py "City"; py "Your age (years)"] /\
  (contains (_normalize_question_text (py "age"))
            (_normalize_question_text (py "Your age (years)")) = true \/
   contains (_normalize_question_text (py "Your age (years)"))
            (_normalize_question_text (py "age")) = true).
Proof.
  apply (find_column_is_a_header [py "City"; py "Your age (years)"] (py "age")).
  reflexivity.
Defined.

(** When some header has the same normal form as the question, the
    resolved column has that normal form too: a header that merely
    contains the question, or is contained in it, is never preferred to
    it, wherever it stands. *)
Theorem equal_normal_form_beats_containment (cols : list str) (q col : str) :
  In col cols ->
  _normalize_question_text col = _normalize_question_text q ->
  exists c,
    _find_column_for_question cols q = Some c /\
    In c cols /\
    _normalize_question_text c = _normalize_question_text q.
Proof.
  intros Hin Hn. unfold _find_column_for_question.
  destruct (first_col (exact_match q) cols) as [c|] eqn:E1.
  - exists c. apply first_col_In in E1 as [Hc Hx]. repeat split; auto.
    apply exact_match_normalized in Hx. now apply str_eqb_eq in Hx.
  - destruct (first_col (normalized_match q) cols) as [c|] eqn:E2.
    + exists c. apply first_col_In in E2 as [Hc Hx]. repeat split; auto.
      now apply str_eqb_eq in Hx.
    + apply first_col_none in E2. specialize (E2 col Hin).
      unfold normalized_match in E2. rewrite Hn, str_eqb_refl in E2. discriminate.
Qed.

Lemma equal_normal_form_beats_containment_witness :
  exists c,
    _find_column_for_question [py "Age group"; py "AGE?"] (py "age") = Some c /\
    In c [py "Age group"; py "AGE?"] /\
    _normalize_question_text c = _normalize_question_text (py "age").
Proof.
  apply (equal_normal_form_beats_containment
           [py "Age group"; py "AGE?"] (py "age") (py "AGE?")).
  - right. left. reflexivity.
  - reflexivity.
Defined.

(** ** More on normalization *)

Lemma isspace_lower_char (c : ascii) : isspace (lower_char c) = isspace c.
Proof. destruct c as [[] [] [] [] [] [] [] []]; reflexivity. Qed.

Lemma lower_char_idempotent (c : ascii) : lower_char (lower_char c) = lower_char c.
Proof. destruct c as [[] [] [] [] [] [] [] []]; reflexivity. Qed.

Lemma lstrip_lower (s : str) : lstrip (lower s) = lower (lstrip s).
Proof.
  unfold lower. induction s as [|c t IH]; simpl; [reflexivity|].
  rewrite isspace_lower_char. now destruct (isspace c).
Qed.

Lemma strip_lower (s : str) : strip (lower s) = lower (strip s).
Proof.
  unfold strip, rstrip. rewrite lstrip_lower.
  unfold lower at 1. rewrite <- map_rev. fold (lower (rev (lstrip s))).
  rewrite lstrip_lower. unfold lower. now rewrite map_rev.
Qed.

(** Texts that differ only in the case of their letters have the same
    normal form, so the second and the third strategy of the resolution
    do not see the case of a header or of a question. *)
Theorem normalize_ignores_case (a b : str) :
  lower a = lower b ->
  _normalize_question_text a = _normalize_question_text b.
Proof.
  intros H. rewrite !normalize_unfold, <- !strip_lower. now rewrite H.
Qed.

Lemma normalize_ignores_case_witness :
  _normalize_question_text (py "Your AGE?") = _normalize_question_text (py "your age?").
Proof.
  apply (normalize_ignores_case (py "Your AGE?") (py "your age?")). reflexivity.
Defined.

Lemma strip_margins (l t r : str) :
  all_space l -> all_space r -> strip (l ++ t ++ r) = strip t.
Proof.
  intros Hl Hr. symmetry. apply trimmed_of_strip.
  destruct (strip_trimmed t) as (l' & r' & E & Hl' & Hr' & Hedge).
  exists (l ++ l'), (r' ++ r). repeat split; try apply Hedge.
  - rewrite E at 1. now rewrite <- !app_assoc.
  - intros c Hc. apply in_app_or in Hc as [Hc|Hc]; auto.
  - intros c Hc. apply in_app_or in Hc as [Hc|Hc]; auto.
Qed.

(** Whitespace before and after a text does not change its normal
    form. *)
Theorem normalize_ignores_margins (l t r : str) :
  all_space l -> all_space r ->
  _normalize_question_text (l ++ t ++ r) = _normalize_question_text t.
Proof.
  intros Hl Hr. rewrite !normalize_unfold. now rewrite strip_margins.
Qed.

Lemma normalize_ignores_margins_witness :
  _normalize_question_text (py "  " ++ py "Your age" ++ py " ")
  = _normalize_question_text (py "Your age").
Proof.
  apply (normalize_ignores_margins (py "  ") (py "Your age") (py " ")).
  - intros c [<-|[<-|[]]]; reflexivity.
  - intros c [<-|[]]; reflexivity.
Defined.

Lemma In_sub_ws_from_inv (b : bool) (c : ascii) (s : str) :
  In c (sub_ws_from b s) -> c = " "%char \/ (In c s /\ isspace c = false).
Proof.
  revert b. induction s as [|d s IH]; intros b; simpl; [tauto|].
  destruct (isspace d) eqn:Hd.
  - destruct b.
    + intros H. apply IH in H as [H|[H1 H2]]; auto.
    + intros [<-|H]; [now left|]. apply IH in H as [H|[H1 H2]]; auto.
  - intros [<-|H]; [right; auto|]. apply IH in H as [H|[H1 H2]]; auto.
Qed.

(** Every character of a normal form is the space or a word character
    (alphanumeric or underscore), and none is an uppercase letter: no
    other whitespace, no punctuation. *)
Theorem normal_form_alphabet (text : str) :
  forallb (fun c => (Ascii.eqb c " " || is_word c)
                    && Ascii.eqb (lower_char c) c)
          (_normalize_question_text text) = true.
Proof.
  apply forallb_forall. intros c Hc.
  rewrite normalize_unfold in Hc. unfold sub_nonword in Hc.
  apply filter_In in Hc as [Hc Hkeep].
  apply In_sub_ws_from_inv in Hc as [->|[Hc Hsp]]; [reflexivity|].
  rewrite Hsp, orb_false_r in Hkeep. rewrite Hkeep, orb_true_r. simpl.
  unfold lower in Hc. apply in_map_iff in Hc as (d & <- & _).
  rewrite lower_char_idempotent. apply Ascii.eqb_refl.
Qed.

(** ** More on cleaning *)

Lemma cleaned_text_In (c : ascii) (s : str) : In c (cleaned_text s) -> In c s.
Proof.
  unfold cleaned_text. intros H.
  apply remove_char_In, remove_char_In in H. now apply In_strip_inv.
Qed.

(** A string that [_clean_value] returns is not empty, holds no double
    quote and no backslash, is none of the placeholders [nan], [none] and
    [-] in any letter case, and is made of characters of the text of the
    value. *)
Theorem clean_value_result_shape (v : cell) (s : str) :
  _clean_value v = Some s ->
  s <> [] /\
  ~ In quote_char s /\ ~ In backslash_char s /\
  ~ In (lower s) null_words /\
  forall c, In c s -> In c (str_of v).
Proof.
  intros H. apply clean_value_some in H as (-> & Hnull & Hne).
  destruct (cleaned_text_no_artifacts (str_of v)) as [Hq Hb].
  repeat split; auto.
  - intros Hin. unfold is_null_text in Hnull.
    apply orb_false_iff in Hnull as [_ Hnull].
    assert (Ht : existsb (str_eqb (lower (cleaned_text (str_of v)))) null_words = true).
    { apply existsb_exists. eexists. split; [exact Hin|apply str_eqb_refl]. }
    congruence.
  - intros c. apply cleaned_text_In.
Qed.

Lemma clean_value_result_shape_witness :
  py "O'Neil" <> [] /\
  ~ In quote_char (py "O'Neil") /\ ~ In backslash_char (py "O'Neil") /\
  ~ In (lower (py "O'Neil")) null_words /\
  forall c, In c (py "O'Neil") -> In c (str_of (CStr (quote_char :: py "O'Neil\ "))).
Proof.
  apply (clean_value_result_shape (CStr (quote_char :: py "O'Neil\ ")) (py "O'Neil")).
  reflexivity.
Defined.

(** Whitespace before and after the text of a cell does not change what
    [_clean_value] returns. *)
Theorem clean_value_ignores_margins (l t r : str) :
  all_space l -> all_space r ->
  _clean_value (CStr (l ++ t ++ r)) = _clean_value (CStr t).
Proof.
  intros Hl Hr. rewrite !clean_value_text. unfold cleaned_text.
  now rewrite strip_margins.
Qed.

Lemma clean_value_ignores_margins_witness :
  _clean_value (CStr (py " " ++ py "Alice Smith" ++ py "  "))
  = _clean_value (CStr (py "Alice Smith")).
Proof.
  apply (clean_value_ignores_margins (py " ") (py "Alice Smith") (py "  ")).
  - intros c [<-|[]]; reflexivity.
  - intros c [<-|[<-|[]]]; reflexivity.
Defined.

(** ** More on multiple choice answers *)

Lemma split_length (sep : ascii) (s : str) :
  List.length (split sep s) = S (count_char sep s).
Proof.
  unfold count_char. induction s as [|c t IH]; simpl; [reflexivity|].
  destruct (Ascii.eqb c sep); simpl; [now rewrite IH|].
  pose proof (split_not_nil sep t) as Hn.
  destruct (split sep t); [contradiction|exact IH].
Qed.

Lemma split_without_sep (sep : ascii) (s : str) :
  ~ In sep s -> split sep s = [s].
Proof.
  induction s as [|c t IH]; simpl; intros H; [reflexivity|].
  destruct (Ascii.eqb c sep) eqn:E.
  - apply Ascii.eqb_eq in E. subst. exfalso. apply H. now left.
  - rewrite IH; [reflexivity|]. intros Hin. apply H. now right.
Qed.

Lemma split_app (sep : ascii) (a b : str) :
  split sep (a ++ sep :: b) = split sep a ++ split sep b.
Proof.
  induction a as [|c a IH]; simpl.
  - now rewrite Ascii.eqb_refl.
  - destruct (Ascii.eqb c sep); [now rewrite IH|].
    rewrite IH. pose proof (split_not_nil sep a) as Hn.
    now destruct (split sep a).
Qed.

Lemma flat_map_option_length {A B} (f : A -> option B) (l : list A) :
  List.length (flat_map (fun x => match f x with Some y => [y] | None => [] end) l)
  <= List.length l.
Proof.
  induction l as [|x l IH]; simpl; [lia|].
  rewrite length_app. destruct (f x); simpl; lia.
Qed.

Lemma choices_of_text_answers (text : str) :
  answers_of (choices_of_text text) =
  flat_map (fun part => match _clean_value (CStr part) with
                        | Some s => [s]
                        | None => []
                        end)
           (split ";" text).
Proof. unfold choices_of_text. now destruct (flat_map _ _). Qed.

(** The answers of the multiple choice transform, when there are any,
    are at most one more than the semicolons of the text, and each is a
    non-empty string without semicolon, double quote and backslash. *)
Theorem multiple_choice_answers_shape (v : cell) (l : list str) :
  _process_multiple_choice v = Some l ->
  l <> [] /\
  List.length l <= S (count_char ";" (str_of v)) /\
  forall s, In s l -> s <> [] /\ forallb answer_char_ok s = true.
Proof.
  intros H.
  assert (Hl : l = answers_of (choices_of_text (str_of v))).
  { destruct (truthy v) eqn:Hv.
    - rewrite (process_multiple_choice_truthy v Hv) in H. now rewrite H.
    - unfold _process_multiple_choice in H. rewrite Hv in H. discriminate. }
  rewrite choices_of_text_answers in Hl. split; [|split].
  - unfold _process_multiple_choice in H. destruct (negb (truthy v)); [discriminate|].
    destruct (truthy_parts _); [discriminate|]. injection H as <-. discriminate.
  - subst l. rewrite <- split_length.
    apply (flat_map_option_length (fun part => _clean_value (CStr part))).
  - intros s Hs. subst l. apply in_flat_map in Hs as (p & Hp & Hs).
    destruct (_clean_value (CStr p)) as [s'|] eqn:E; [|contradiction].
    destruct Hs as [<-|[]].
    apply clean_value_some in E as (-> & _ & Hne). simpl in *.
    destruct (cleaned_text_no_artifacts p) as [Hq Hb].
    split; [exact Hne|]. apply forallb_forall. intros c Hc.
    unfold answer_char_ok. rewrite !andb_true_iff, !negb_true_iff. repeat split.
    + apply Ascii.eqb_neq. intros ->.
      apply (split_parts_without_sep ";"%char (str_of v) p Hp).
      now apply cleaned_text_In.
    + apply Ascii.eqb_neq. intros ->. contradiction.
    + apply Ascii.eqb_neq. intros ->. contradiction.
Qed.

Lemma multiple_choice_answers_shape_witness :
  [py "Red"; py "Blue"] <> [] /\
  List.length [py "Red"; py "Blue"] <= S (count_char ";" (str_of (CStr (py "Red; Blue; ")))) /\
  forall s, In s [py "Red"; py "Blue"] -> s <> [] /\ forallb answer_char_ok s = true.
Proof.
  apply (multiple_choice_answers_shape (CStr (py "Red; Blue; ")) [py "Red"; py "Blue"]).
  reflexivity.
Defined.

(** On a text without semicolon the multiple choice transform returns
    what [_clean_value] returns, as a list of one answer, or null. *)
Theorem multiple_choice_single_answer (s : str) :
  ~ In ";"%char s ->
  _process_multiple_choice (CStr s) =
  option_map (fun answer => [answer]) (_clean_value (CStr s)).
Proof.
  intros H. rewrite process_multiple_choice_text. unfold choices_of_text.
  rewrite (split_without_sep ";"%char s H). simpl.
  now destruct (_clean_value (CStr s)).
Qed.

Lemma multiple_choice_single_answer_witness :
  _process_multiple_choice (CStr (py " Red ")) =
  option_map (fun answer => [answer]) (_clean_value (CStr (py " Red "))).
Proof.
  apply (multiple_choice_single_answer (py " Red ")).
  simpl. intuition discriminate.
Defined.

(** The answers of two texts joined by a semicolon are the answers of the
    first followed by the answers of the second. *)
Theorem multiple_choice_of_joined_texts (a b : str) :
  answers_of (_process_multiple_choice (CStr (a ++ ";"%char :: b))) =
  answers_of (_process_multiple_choice (CStr a))
  ++ answers_of (_process_multiple_choice (CStr b)).
Proof.
  rewrite !process_multiple_choice_text, !choices_of_text_answers.
  rewrite split_app. apply flat_map_app.
Qed.

(** ** The keys of the records *)

Lemma keys_dict_set {A} (k : str) (v : A) (d : dict A) :
  map fst (dict_set k v d) =
  if existsb (str_eqb k) (map fst d) then map fst d else map fst d ++ [k].
Proof.
  induction d as [|[k' v'] t IH]; simpl; [reflexivity|].
  rewrite (str_eqb_sym k k'). destruct (str_eqb k' k) eqn:E; simpl.
  - apply str_eqb_eq in E. now subst.
  - rewrite IH. now destruct (existsb (str_eqb k) (map fst t)).
Qed.

Lemma question_outcome_stored (cols : list str) (row : Series) (info : QuestionSpec) :
  match question_outcome cols row info with Some _ => true | None => false end
  = question_is_stored cols info.
Proof.
  unfold question_outcome, question_is_stored.
  destruct (_find_column_for_question cols (question info)) as [col|]; [|reflexivity].
  now destruct (_skip_metadata_columns col).
Qed.

Lemma transform_row_keys (questions : Questions) (cols : list str)
    (index : nat) (row : Series) :
  map fst (transform_row questions cols index row) = record_keys cols questions.
Proof.
  rewrite transform_row_outcome. unfold record_keys.
  change [py "response_id"] with (map fst (initial_record index)).
  generalize (initial_record index) as d.
  induction questions as [|[k info] rest IH]; intros d; simpl; [reflexivity|].
  rewrite IH. f_equal. unfold assign_step, keys_step. simpl.
  rewrite <- (question_outcome_stored cols row info).
  destruct (question_outcome cols row info); simpl; [apply keys_dict_set|reflexivity].
Qed.

Lemma existsb_str_eqb_In (k : str) (keys : list str) :
  existsb (str_eqb k) keys = true <-> In k keys.
Proof.
  rewrite existsb_exists. split.
  - intros (x & Hx & E). apply str_eqb_eq in E. now subst.
  - intros H. exists k. split; [exact H|apply str_eqb_refl].
Qed.

Lemma keys_step_invariant (cols : list str) (questions : Questions)
    (P : list str -> Prop) (keys : list str) :
  (forall ks k, P ks -> ~ In k ks -> In k (map fst questions) -> P (ks ++ [k])) ->
  P keys -> P (fold_left (keys_step cols) questions keys).
Proof.
  revert keys. induction questions as [|[k info] rest IH]; intros keys Hstep H0;
    simpl; [exact H0|].
  apply IH.
  - intros ks k' Hp Hn Hin. apply Hstep; auto. now right.
  - unfold keys_step. simpl. destruct (question_is_stored cols info); [|exact H0].
    destruct (existsb (str_eqb k) keys) eqn:E; [exact H0|].
    apply Hstep; [exact H0| |now left].
    intros Hin. apply existsb_str_eqb_In in Hin. congruence.
Qed.

(** Any two records of one output have the same keys in the same order:
    whether a question is stored does not depend on the row. *)
Theorem records_share_their_keys (questions : Questions) (raw_data : Table)
    (r1 r2 : dict value) :
  In r1 (transform questions raw_data) ->
  In r2 (transform questions raw_data) ->
  map fst r1 = map fst r2.
Proof.
  intros H1 H2.
  apply transform_records in H1 as (i1 & row1 & _ & ->).
  apply transform_records in H2 as (i2 & row2 & _ & ->).
  now rewrite !transform_row_keys.
Qed.

Lemma records_share_their_keys_witness :
  map fst [(py "response_id", VInt 1); (py "fav", VList [py "Red"])]
  = map fst [(py "response_id", VInt 2); (py "fav", VNull)].
Proof.
  apply (records_share_their_keys
           [(py "who", mkQuestion (py "Name") (py "open_text"));
            (py "fav", mkQuestion (py "Favorite colors") (py "multiple_choice"))]
           (mkTable [py "Name"; py "Favorite colors"]
                    [[CStr (py "Ann"); CStr (py "Red")]; [CStr (py "Bob"); CNaN]])).
  - left. reflexivity.
  - right. left. reflexivity.
Defined.

(** In every record no key occurs twice, the first key is [response_id],
    and every other key is a question key of the schema. *)
Theorem record_keys_are_well_formed (questions : Questions) (raw_data : Table)
    (record : dict value) :
  In record (transform questions raw_data) ->
  NoDup (map fst record) /\
  (exists others, map fst record = py "response_id" :: others) /\
  (forall k, In k (map fst record) ->
             k = py "response_id" \/ In k (map fst questions)).
Proof.
  intros H. apply transform_records in H as (index & row & _ & ->).
  rewrite transform_row_keys. unfold record_keys.
  apply (keys_step_invariant (columns raw_data) questions
           (fun ks => NoDup ks /\
                      (exists others, ks = py "response_id" :: others) /\
                      (forall k, In k ks ->
                                 k = py "response_id" \/ In k (map fst questions)))).
  - intros ks k (Hnd & (others & ->) & Hsub) Hn Hin. split; [|split].
    + apply NoDup_app; repeat split; auto.
      * repeat constructor. intros [].
      * intros x Hx [<-|[]]. contradiction.
    + exists (others ++ [k]). reflexivity.
    + intros x Hx. apply in_app_or in Hx as [Hx|[<-|[]]]; auto.
  - split; [|split].
    + repeat constructor. intros [].
    + now exists [].
    + intros k [<-|[]]. now left.
Qed.

Lemma record_keys_are_well_formed_witness :
  NoDup (map fst [(py "response_id", VNull); (py "fav", VList [py "Red"])]) /\
  (exists others,
     map fst [(py "response_id", VNull); (py "fav", VList [py "Red"])]
     = py "response_id" :: others) /\
  (forall k, In k (map fst [(py "response_id", VNull); (py "fav", VList [py "Red"])]) ->
             k = py "response_id" \/
             In k (map fst [(py "response_id", mkQuestion (py "Ticket") (py "identifier"));
                            (py "fav", mkQuestion (py "Favorite colors") (py "multiple_choice"))])).
Proof.
  apply (record_keys_are_well_formed
           [(py "response_id", mkQuestion (py "Ticket") (py "identifier"));
            (py "fav", mkQuestion (py "Favorite colors") (py "multiple_choice"))]
           (mkTable [py "Favorite colors"] [[CStr (py "Red")]])).
  left. reflexivity.
Defined.

(** ** The values of the records *)

Lemma process_multiple_choice_some (v : cell) (l : list str) :
  _process_multiple_choice v = Some l ->
  l <> [] /\ forall s, In s l -> s <> [].
Proof.
  unfold _process_multiple_choice. destruct (negb (truthy v)); [discriminate|].
  rewrite truthy_parts_clean.
  destruct (flat_map _ _) as [|a rest] eqn:E; [discriminate|].
  intros [= <-]. split; [discriminate|].
  intros s Hs. rewrite <- E in Hs. apply in_flat_map in Hs as (p & _ & Hp).
  destruct (_clean_value (CStr p)) as [s'|] eqn:Ec; [|contradiction].
  destruct Hp as [<-|[]]. now apply clean_value_some in Ec.
Qed.

Lemma value_transform_shape (question_type : str) (raw_value : cell) :
  answer_ok (value_transform question_type raw_value) = true /\
  match value_transform question_type raw_value with
  | VNull => True
  | VStr _ => str_eqb question_type (py "multiple_choice") = false
  | VList _ => str_eqb question_type (py "multiple_choice") = true
  | VInt _ => False
  end.
Proof.
  unfold value_transform.
  destruct (str_eqb question_type (py "multiple_choice")).
  - destruct (_process_multiple_choice raw_value) as [l|] eqn:E; simpl; [|auto].
    apply process_multiple_choice_some in E as [Hne Hall].
    split; [|reflexivity]. apply andb_true_iff. split.
    + now destruct l.
    + apply forallb_forall. intros s Hs. specialize (Hall s Hs). now destruct s.
  - destruct (_clean_value raw_value) as [s|] eqn:E; simpl; [|auto].
    apply clean_value_some in E as (_ & _ & Hne). split; [|reflexivity].
    now destruct s.
Qed.

(** For a question resolved to a column that is not a metadata column,
    the record of a row holds under the question key the cleaned cell of
    that row under that column: the list of answers when the declared
    type is [multiple_choice], the cleaned scalar for every other type. *)
Theorem resolved_question_value (questions : Questions) (raw_data : Table)
    (k : str) (info : QuestionSpec) (col : str)
    (i index : nat) (row : Series) :
  NoDup (map fst questions) ->
  In (k, info) questions ->
  _find_column_for_question (columns raw_data) (question info) = Some col ->
  _skip_metadata_columns col = false ->
  nth_error (iterrows raw_data) i = Some (index, row) ->
  exists record,
    nth_error (transform questions raw_data) i = Some record /\
    dict_get k record =
    Some (if str_eqb (qtype info) (py "multiple_choice")
          then of_choices (_process_multiple_choice (row_get row col))
          else of_clean (_clean_value (row_get row col))).
Proof.
  intros Hnd Hin Hcol Hmeta Hrow.
  exists (transform_row questions (columns raw_data) index row).
  split; [now apply transform_nth|].
  rewrite (transform_row_get_in questions (columns raw_data) index row k info Hnd Hin).
  unfold question_outcome. now rewrite Hcol, Hmeta.
Qed.

Lemma resolved_question_value_witness :
  exists record,
    nth_error
      (transform [(py "age", mkQuestion (py "Your age") (py "open_text"))]
                 (mkTable [py "City"; py " Your Age? "]
                          [[CStr (py "Breda"); CInt 31]]))
      0 = Some record /\
    dict_get (py "age") record =
    Some (if str_eqb (py "open_text") (py "multiple_choice")
          then of_choices (_process_multiple_choice (CInt 31))
          else of_clean (_clean_value (CInt 31))).
Proof.
  apply (resolved_question_value
           [(py "age", mkQuestion (py "Your age") (py "open_text"))]
           (mkTable [py "City"; py " Your Age? "] [[CStr (py "Breda"); CInt 31]])
           (py "age") (mkQuestion (py "Your age") (py "open_text"))
           (py " Your Age? ") 0 0
           [(py "City", CStr (py "Breda")); (py " Your Age? ", CInt 31)]).
  - simpl. repeat constructor; simpl; intuition discriminate.
  - left. reflexivity.
  - reflexivity.
  - reflexivity.
  - reflexivity.
Defined.

(** Under the key of a question other than [response_id] a record holds
    null, a non-empty string or a non-empty list of non-empty strings; a
    list only when the declared type is [multiple_choice], a string only
    when it is not; and never a number. *)
Theorem record_values_are_well_shaped (questions : Questions) (raw_data : Table)
    (k : str) (info : QuestionSpec) (record : dict value) (v : value) :
  NoDup (map fst questions) ->
  In (k, info) questions ->
  k <> py "response_id" ->
  In record (transform questions raw_data) ->
  dict_get k record = Some v ->
  answer_ok v = true /\
  match v with
  | VNull => True
  | VStr _ => str_eqb (qtype info) (py "multiple_choice") = false
  | VList _ => str_eqb (qtype info) (py "multiple_choice") = true
  | VInt _ => False
  end.
Proof.
  intros Hnd Hin Hk Hrec Hv.
  apply transform_records in Hrec as (index & row & _ & ->).
  rewrite (transform_row_get_in questions (columns raw_data) index row k info Hnd Hin) in Hv.
  unfold question_outcome in Hv.
  destruct (_find_column_for_question (columns raw_data) (question info)) as [col|].
  - destruct (_skip_metadata_columns col).
    + simpl in Hv.
      assert (Ek : str_eqb (py "response_id") k = false)
        by (apply str_eqb_neq; congruence).
      unfold py in Ek. simpl in Ek. rewrite Ek in Hv. discriminate.
    + injection Hv as <-. apply value_transform_shape.
  - injection Hv as <-. simpl. auto.
Qed.

Lemma record_values_are_well_shaped_witness :
  answer_ok (VList [py "Red"; py "Blue"]) = true /\
  str_eqb (py "multiple_choice") (py "multiple_choice") = true.
Proof.
  apply (record_values_are_well_shaped
           [(py "fav", mkQuestion (py "Favorite colors") (py "multiple_choice"))]
           (mkTable [py "Favorite colors"] [[CStr (py "Red; Blue; ")]])
           (py "fav") (mkQuestion (py "Favorite colors") (py "multiple_choice"))
           [(py "response_id", VInt 1); (py "fav", VList [py "Red"; py "Blue"])]
           (VList [py "Red"; py "Blue"])).
  - simpl. repeat constructor; simpl; intuition discriminate.
  - left. reflexivity.
  - discriminate.
  - left. reflexivity.
  - reflexivity.
Defined.

(** ** More on metadata columns *)

Lemma contains_trans (a b c : str) :
  contains a b = true -> contains b c = true -> contains a c = true.
Proof.
  rewrite !contains_iff. intros (x & y & ->) (u & w & ->).
  exists (u ++ x), (y ++ w). now rewrite <- !app_assoc.
Qed.

(** A header that contains a metadata header is a metadata header: text
    added before or after never takes a column out of the exclusion. *)
Theorem skip_metadata_extends (before col_name after : str) :
  _skip_metadata_columns col_name = true ->
  _skip_metadata_columns (before ++ col_name ++ after) = true.
Proof.
  rewrite !skip_metadata_iff. intros (indicator & Hin & Hc).
  exists indicator. split; [exact Hin|].
  apply (contains_trans indicator (lower col_name)); [exact Hc|].
  apply contains_iff. exists (lower before), (lower after).
  unfold lower. now rewrite !map_app.
Qed.

Lemma skip_metadata_extends_witness :
  _skip_metadata_columns (py "Respondent " ++ py "Name" ++ py " (optional)") = true.
Proof.
  apply (skip_metadata_extends (py "Respondent ") (py "Name") (py " (optional)")).
  reflexivity.
Defined.

(** The indicator [response id] decides nothing: a header that contains
    it contains the indicator [id], so the test gives the same answer
    with the seven other indicators alone. *)
Theorem response_id_indicator_is_redundant (col_name : str) :
  _skip_metadata_columns col_name =
  existsb (fun indicator => contains indicator (lower col_name))
          [py "id"; py "start time"; py "completion time"; py "email";
           py "name"; py "timestamp"; py "ip address"].
Proof.
  apply Bool.eq_iff_eq_true. unfold _skip_metadata_columns.
  rewrite !existsb_exists. split; intros (indicator & Hin & Hc).
  - destruct (str_eqb indicator (py "response id")) eqn:E.
    + apply str_eqb_eq in E. subst indicator. exists (py "id").
      split; [now left|].
      now apply (contains_trans (py "id") (py "response id")).
    + exists indicator. split; [|exact Hc].
      unfold metadata_indicators in Hin.
      destruct Hin as [H|[H|[H|[H|[H|[H|[H|[H|[]]]]]]]]]; subst indicator;
        try (vm_compute in E; discriminate); simpl; auto 12.
  - exists indicator. split; [|exact Hc].
    unfold metadata_indicators. simpl in Hin |- *. intuition.
Qed.

(** ** [get_summary] and [main] *)

Lemma transform_no_rows (questions : Questions) (raw : Table) :
  transform questions raw = [] <-> data raw = [].
Proof.
  pose proof (transform_length questions raw) as H. split; intros E.
  - rewrite E in H. simpl in H. now destruct (data raw).
  - rewrite E in H. now destruct (transform questions raw).
Qed.

Lemma get_summary_after_transform {M} (self : Transformer M) :
  get_summary (run_transform self) =
  match data (raw_data self) with
  | [] => NoData (py "No data transformed yet")
  | first :: rest =>
      Stats (S (List.length rest))
            (List.length (schema_questions (schema self)))
            (Some (transform_row (schema_questions (schema self))
                                 (columns (raw_data self)) 0
                                 (combine (columns (raw_data self)) first)))
  end.
Proof.
  unfold get_summary, run_transform. simpl.
  pose proof (transform_length (schema_questions (schema self)) (raw_data self)) as Hlen.
  unfold transform, iterrows in *.
  destruct (data (raw_data self)) as [|first rest]; simpl in *; [reflexivity|].
  now injection Hlen as ->.
Qed.

(** After [transform], [get_summary] answers with the message, not with a
    dictionary, exactly when the sheet has no row; otherwise it reports
    the number of rows, the number of questions of the schema, and the
    record of the first row as the sample. *)
Theorem get_summary_of_transformed {M} (self : Transformer M) :
  (data (raw_data self) = [] <->
   get_summary (run_transform self) = NoData (py "No data transformed yet")) /\
  (forall first rest,
     data (raw_data self) = first :: rest ->
     get_summary (run_transform self) =
     Stats (List.length (data (raw_data self)))
           (List.length (schema_questions (schema self)))
           (Some (transform_row (schema_questions (schema self))
                                (columns (raw_data self)) 0
                                (combine (columns (raw_data self)) first)))).
Proof.
  rewrite get_summary_after_transform. split.
  - destruct (data (raw_data self)); split; try discriminate; reflexivity.
  - intros first rest E. now rewrite E.
Qed.


(** On a sheet without rows [main] writes the output document, with an
    empty list of responses, and then exits with status 1: the message
    that [get_summary] returns cannot be indexed by [total_responses]. *)
Theorem main_on_empty_sheet {M} (raw : Table) (loaded_schema : Schema M) :
  data raw = [] ->
  main (Returned raw) (Returned loaded_schema) true =
  (1%Z,
   Some (mkDocument (match survey_metadata loaded_schema with
                     | Some m => Copied m
                     | None => EmptyObject
                     end)
                    [])).
Proof.
  intros E. unfold main, __init__, save_json.
  rewrite get_summary_after_transform. simpl. rewrite E. simpl.
  now rewrite (proj2 (transform_no_rows (schema_questions loaded_schema) raw) E).
Qed.

Lemma main_on_empty_sheet_witness :
  main (Returned (mkTable [py "Age"] []))
       (Returned (mkSchema (Some tt) [(py "age", mkQuestion (py "Age") (py "open_text"))]))
       true
  = (1%Z, Some (mkDocument (Copied tt) [])).
Proof.
  apply (main_on_empty_sheet
           (mkTable [py "Age"] [])
           (mkSchema (Some tt) [(py "age", mkQuestion (py "Age") (py "open_text"))])).
  reflexivity.
Defined.

(** Whatever [main] writes is the schema's [survey_metadata], or the empty
    object when the schema has none, with one response per row of the
    sheet; it writes nothing when loading or writing raised. *)
Theorem main_written_document {M} (_load_data : result Table)
    (_load_schema : result (Schema M)) (writable : bool) :
  match snd (main _load_data _load_schema writable) with
  | Some written =>
      exists raw loaded_schema,
        _load_data = Returned raw /\ _load_schema = Returned loaded_schema /\
        writable = true /\
        doc_responses written = transform (schema_questions loaded_schema) raw /\
        List.length (doc_responses written) = List.length (data raw) /\
        doc_survey_metadata written =
          match survey_metadata loaded_schema with
          | Some m => Copied m
          | None => EmptyObject
          end
  | None =>
      (exists e, _load_data = Raised e) \/ (exists e, _load_schema = Raised e)
      \/ writable = false
  end.
Proof.
  unfold main, __init__.
  destruct _load_data as [raw|e]; [|simpl; eauto].
  destruct _load_schema as [s|e]; [|simpl; eauto].
  unfold save_json. destruct writable; [|simpl; auto].
  assert (H : exists raw0 s0,
             Returned raw = Returned raw0 /\ @Returned (Schema M) s = Returned s0 /\
             true = true /\
             transform (schema_questions s) raw = transform (schema_questions s0) raw0 /\
             List.length (transform (schema_questions s) raw) = List.length (data raw0) /\
             match survey_metadata s with Some m => Copied m | None => EmptyObject end =
             match survey_metadata s0 with Some m => Copied m | None => EmptyObject end).
  { exists raw, s. repeat split. apply transform_length. }
  destruct (summary_total_responses _); [|exact H].
  destruct (summary_total_questions _); exact H.
Qed.
